(** * Onboarding scripts: the group selector of [user.py] and the role
      picker of [group.py]

    Shallow embedding of the two interactive functions of
    [onboarding-scripts]:

    - [user.display_filterable_list]: the curses loop that filters the
      fetched groups by the typed text and returns the chosen group id;
    - [group.select_roles]: the comma-separated role picker.

    Python values are modelled as the interpreter has them: [int] is [Z],
    [str] is a sequence of Unicode code points, exceptions are an explicit
    outcome.  The terminal is the stream of key codes [stdscr.getch()]
    delivers; drawing calls are collected as a frame and are assumed to
    succeed (a window too small for [addstr] is outside the model). *)

From Stdlib Require Import ZArith String Ascii List Lia Bool.
Import ListNotations.
Local Open Scope Z_scope.

(** ** Python built-ins used by the scripts *)
Module Py.

(** A Python [str]: the sequence of its code points. *)
Definition str := list Z.

Definition ord (c : ascii) : Z := Z.of_N (N_of_ascii c).

(** Literals of the scripts and of the scenarios, written as Rocq strings. *)
Fixpoint lit (s : string) : str :=
  match s with
  | EmptyString => []
  | String c s' => ord c :: lit s'
  end.

Inductive exn := ZeroDivisionError | IndexError | ValueError.

(** [chr(k)]: [ValueError] outside [range(0x110000)]. *)
Definition chr (k : Z) : option str :=
  if (0 <=? k) && (k <=? 1114111) then Some [k] else None.

(** [a % b] on [int]: the result has the sign of [b]; [b = 0] raises
    [ZeroDivisionError]. *)
Definition mod_ (a b : Z) : option Z :=
  if b =? 0 then None else Some (a mod b).

(** [l[i]]: a negative index counts from the end; [IndexError] when the
    index is still out of range. *)
Definition getitem {A : Type} (l : list A) (i : Z) : option A :=
  let n := Z.of_nat (length l) in
  let j := if i <? 0 then i + n else i in
  if (0 <=? j) && (j <? n) then nth_error l (Z.to_nat j) else None.

(** [s[:-1]] *)
Definition but_last {A : Type} (s : list A) : list A :=
  firstn (length s - 1) s.

Fixpoint startswith (p s : str) : bool :=
  match p, s with
  | [], _ => true
  | _ :: _, [] => false
  | a :: p', b :: s' => (a =? b) && startswith p' s'
  end.

(** [sub in s] on strings. *)
Fixpoint contains (sub s : str) : bool :=
  startswith sub s ||
  match s with
  | [] => false
  | _ :: s' => contains sub s'
  end.

(** [s.split(sep)] for a one-character separator: never the empty list. *)
Fixpoint split (sep : Z) (s : str) : list str :=
  match s with
  | [] => [[]]
  | c :: s' =>
      if c =? sep then [] :: split sep s'
      else match split sep s' with
           | [] => [[c]]
           | tok :: toks => (c :: tok) :: toks
           end
  end.

(** [str.lower] follows the Unicode tables of the interpreter, which are
    not part of the scripts: the selector takes it as a parameter.  On
    ASCII text it is the map below. *)
Definition is_ascii (c : Z) : Prop := 0 <= c < 128.

Definition lower_ascii_char (c : Z) : Z :=
  if (65 <=? c) && (c <=? 90) then c + 32 else c.

Definition ascii_lower (s : str) : str := map lower_ascii_char s.

Definition lowers_ascii (lower : str -> str) : Prop :=
  forall s, Forall is_ascii s -> lower s = ascii_lower s.

(** [str.strip] and [int] are the interpreter's as well (Unicode white
    space and digits): [group.select_roles] takes them as parameters.  The
    two functions below are their restriction to ASCII white space and to
    signed ASCII decimal numerals, used to run the picker on examples. *)
Definition is_space (c : Z) : bool :=
  (c =? 32) || ((9 <=? c) && (c <=? 13)).

Fixpoint lstrip (s : str) : str :=
  match s with
  | [] => []
  | c :: s' => if is_space c then lstrip s' else s
  end.

Definition ascii_strip (s : str) : str := rev (lstrip (rev (lstrip s))).

Fixpoint digits (acc : Z) (s : str) : option Z :=
  match s with
  | [] => Some acc
  | c :: s' =>
      if (48 <=? c) && (c <=? 57) then digits (10 * acc + (c - 48)) s'
      else None
  end.

Definition ascii_int (s : str) : option Z :=
  match s with
  | [] => None
  | c :: d =>
      if c =? 45 then
        match d with [] => None | _ :: _ => option_map Z.opp (digits 0 d) end
      else if c =? 43 then
        match d with [] => None | _ :: _ => digits 0 d end
      else digits 0 s
  end.

End Py.

(** ** The values of the [curses] key constants (ncurses) *)
Module curses.
Definition KEY_DOWN : Z := 258.
Definition KEY_UP : Z := 259.
Definition KEY_BACKSPACE : Z := 263.
Definition KEY_ENTER : Z := 343.
End curses.

(** ** [user.py] *)
Module user.

(** A group as [retrieve_groups] yields it: the selector reads the keys
    ['name'] and ['id']. *)
Record group := { name : Py.str; id : Py.str }.

Record state := { current_row : Z; search_text : Py.str }.

(** What one turn of the [while True] loop does after [getch]. *)
Inductive outcome :=
| Continue (st : state)
| Return (r : option Py.str)
| Raise (e : Py.exn).

(** Where the selector stands once a stream of keys is consumed. *)
Inductive status :=
| Active (st : state)
| Returned (r : option Py.str)
| Raised (e : Py.exn).

(** One [addstr] call: row, text, and whether [A_REVERSE] is on. *)
Record draw := { row : Z; text : Py.str; reverse : bool }.

Section Selector.

Variable lower : Py.str -> Py.str.

(** [search_text.lower() in opt['name'].lower()] *)
Definition matches (search_text : Py.str) (opt : group) : bool :=
  Py.contains (lower search_text) (lower (name opt)).

(** [[opt for opt in options if ...]] *)
Fixpoint filtered_options (options : list group) (search_text : Py.str)
  : list group :=
  match options with
  | [] => []
  | opt :: rest =>
      if matches search_text opt
      then opt :: filtered_options rest search_text
      else filtered_options rest search_text
  end.

Fixpoint draw_rows (idx : Z) (current_row : Z) (view : list group)
  : list draw :=
  match view with
  | [] => []
  | option :: rest =>
      {| row := 3 + idx; text := name option;
         reverse := idx =? current_row |}
        :: draw_rows (idx + 1) current_row rest
  end.

(** The frame drawn at the top of a turn. *)
Definition render (options : list group) (st : state) : list draw :=
  let view := filtered_options options (search_text st) in
  {| row := 0;
     text := Py.lit "Type to filter, press Enter to select a group:";
     reverse := false |}
  :: {| row := 1; text := Py.lit "Filter: " ++ search_text st;
        reverse := false |}
  :: match view with
     | [] => [ {| row := 3; text := Py.lit "No results found.";
                  reverse := false |} ]
     | _ :: _ => draw_rows 0 (current_row st) view
     end.

(** The key dispatch of one turn. *)
Definition on_key (options : list group) (st : state) (key : Z)
  : outcome :=
  let view := filtered_options options (search_text st) in
  let len := Z.of_nat (length view) in
  if key =? curses.KEY_UP then
    match Py.mod_ (current_row st - 1) len with
    | Some r => Continue {| current_row := r;
                            search_text := search_text st |}
    | None => Raise Py.ZeroDivisionError
    end
  else if key =? curses.KEY_DOWN then
    match Py.mod_ (current_row st + 1) len with
    | Some r => Continue {| current_row := r;
                            search_text := search_text st |}
    | None => Raise Py.ZeroDivisionError
    end
  else if (key =? curses.KEY_BACKSPACE) || (key =? 127) then
    Continue {| current_row := current_row st;
                search_text := Py.but_last (search_text st) |}
  else if (key =? curses.KEY_ENTER) || existsb (Z.eqb key) [10; 13] then
    match Py.getitem view (current_row st) with
    | Some opt => Return (Some (id opt))
    | None => Raise Py.IndexError
    end
  else if key =? 27 then
    Return None
  else
    match Py.chr key with
    | Some c => Continue {| current_row := current_row st;
                            search_text := search_text st ++ c |}
    | None => Raise Py.ValueError
    end.

(** The loop, fed the keys [getch] returns, from a given state. *)
Fixpoint run (options : list group) (st : state) (keys : list Z)
  : status :=
  match keys with
  | [] => Active st
  | key :: keys' =>
      match on_key options st key with
      | Continue st' => run options st' keys'
      | Return r => Returned r
      | Raise e => Raised e
      end
  end.

Definition initial : state := {| current_row := 0; search_text := [] |}.

Definition display_filterable_list (options : list group)
  (keys : list Z) : status :=
  run options initial keys.

(** The view a state shows. *)
Definition view_of (options : list group) (st : state) : list group :=
  filtered_options options (search_text st).

End Selector.

(** *** The filtering rule in the words of the specification *)

(** [label] contains [s] as a case-insensitive substring. *)
Definition ci_substring (lower : Py.str -> Py.str) (s label : Py.str)
  : Prop :=
  exists pre post, lower label = pre ++ lower s ++ post.

(** [sub] is the subsequence of [l] made of the elements satisfying [P],
    in the order of [l]. *)
Inductive subsequence_where {A : Type} (P : A -> Prop)
  : list A -> list A -> Prop :=
| sw_nil : subsequence_where P [] []
| sw_keep x l sub :
    P x -> subsequence_where P l sub ->
    subsequence_where P (x :: l) (x :: sub)
| sw_skip x l sub :
    ~ P x -> subsequence_where P l sub ->
    subsequence_where P (x :: l) sub.

(** *** Key classes *)

Definition is_arrow (key : Z) : Prop :=
  key = curses.KEY_UP \/ key = curses.KEY_DOWN.

Definition is_backspace (key : Z) : Prop :=
  key = curses.KEY_BACKSPACE \/ key = 127.

Definition is_enter (key : Z) : Prop :=
  key = curses.KEY_ENTER \/ key = 10 \/ key = 13.

Definition is_escape (key : Z) : Prop := key = 27.

(** The keys the last branch of the dispatch receives. *)
Definition is_other (key : Z) : Prop :=
  ~ is_arrow key /\ ~ is_backspace key /\ ~ is_enter key /\ ~ is_escape key.

(** The code of a printable ASCII character, as [getch] delivers it. *)
Definition is_printable (key : Z) : Prop := 32 <= key <= 126.

(** *** ASCII sessions: the option names are ASCII and every key is a
    special key or an ASCII code, so that only the ASCII behaviour of
    [str.lower] matters. *)

Definition ascii_names (options : list group) : Prop :=
  Forall (fun opt => Forall Py.is_ascii (name opt)) options.

Definition ascii_key (key : Z) : Prop :=
  key < 128 \/ is_arrow key \/ is_backspace key \/ is_enter key.

End user.

(** ** [group.py] *)
Module group.

(** A role of the application as [get_roles] yields it. *)
Record role := { name : Py.str; id : Py.str }.

(** The two [ValueError]s the [try] block can meet: the one [int] raises
    on a token, and [ValueError("Invalid role selection.")]. *)
Inductive value_error :=
| InvalidLiteral (token : Py.str)
| InvalidRoleSelection.

(** What the function writes to the terminal, call by call. *)
Inductive output :=
| PrintHeader
| PrintRole (number : Z) (role_name : Py.str)
| Prompt
| PrintInputError (ve : value_error).

(** How the call ends: [return], [sys.exit(status)], or an exception the
    function does not catch. *)
Inductive result :=
| Returned (selected_role_ids : list Py.str)
| Exited (status : Z)
| Raised (e : Py.exn).

(** The body of the [try] block: a value, a [ValueError] for the handler,
    or another exception. *)
Inductive attempt (A : Type) :=
| Ok (a : A)
| Except (ve : value_error)
| Uncaught (e : Py.exn).
Arguments Ok {A} a.
Arguments Except {A} ve.
Arguments Uncaught {A} e.

Definition bind {A B : Type} (m : attempt A) (k : A -> attempt B)
  : attempt B :=
  match m with
  | Ok a => k a
  | Except ve => Except ve
  | Uncaught e => Uncaught e
  end.

Notation "x <- m ;; k" := (bind m (fun x => k))
  (at level 61, m at next level, right associativity).

Section SelectRoles.

Variable strip : Py.str -> Py.str.
Variable int : Py.str -> option Z.

(** [for i, role in enumerate(roles): print(f"{i+1}. {role['name']}")] *)
Fixpoint print_roles (i : Z) (roles : list role) : list output :=
  match roles with
  | [] => []
  | role :: rest => PrintRole (i + 1) (name role) :: print_roles (i + 1) rest
  end.

(** [[int(index.strip()) - 1 for index in selected_indices.split(",")]] *)
Fixpoint parse_indices (tokens : list Py.str) : attempt (list Z) :=
  match tokens with
  | [] => Ok []
  | index :: rest =>
      match int (strip index) with
      | None => Except (InvalidLiteral (strip index))
      | Some n =>
          indices <- parse_indices rest ;;
          Ok (n - 1 :: indices)
      end
  end.

(** The [for index in selected_indices] loop, appending to
    [selected_role_ids]. *)
Fixpoint append_ids (roles : list role) (selected_indices : list Z)
  (selected_role_ids : list Py.str) : attempt (list Py.str) :=
  match selected_indices with
  | [] => Ok selected_role_ids
  | index :: rest =>
      if (index <? 0) || (index >=? Z.of_nat (length roles)) then
        Except InvalidRoleSelection
      else
        match Py.getitem roles index with
        | Some role =>
            append_ids roles rest (selected_role_ids ++ [id role])
        | None => Uncaught Py.IndexError
        end
  end.

(** [select_roles(roles)] when the operator answers the prompt with
    [line]: what is printed, and how the call ends. *)
Definition select_roles (roles : list role) (line : Py.str)
  : list output * result :=
  let shown := PrintHeader :: print_roles 0 roles ++ [Prompt] in
  match
    selected_indices <- parse_indices (Py.split 44 line) ;;
    append_ids roles selected_indices []
  with
  | Ok selected_role_ids => (shown, Returned selected_role_ids)
  | Except ve => (shown ++ [PrintInputError ve], Exited 1)
  | Uncaught e => (shown, Raised e)
  end.

End SelectRoles.

(** *** The picker in the words of its description *)

(** The token parses as the integer [i]. *)
Definition parses_as (strip : Py.str -> Py.str) (int : Py.str -> option Z)
  (token : Py.str) (i : Z) : Prop :=
  int (strip token) = Some i.

(** [i] is one of the numbers shown to the operator. *)
Definition in_range (roles : list role) (i : Z) : Prop :=
  1 <= i <= Z.of_nat (length roles).

(** [rid] is [roles[i-1]["id"]] for a one-based [i]. *)
Definition id_at (roles : list role) (i : Z) (rid : Py.str) : Prop :=
  exists r, nth_error roles (Z.to_nat (i - 1)) = Some r /\ id r = rid.

End group.

(** ** The data of the scenarios *)
Module scenario.

Definition teams : list user.group :=
  [ {| user.name := Py.lit "Team A"; user.id := Py.lit "1" |};
    {| user.name := Py.lit "Team B"; user.id := Py.lit "2" |};
    {| user.name := Py.lit "Alpha"; user.id := Py.lit "3" |} ].

Definition single : list user.group :=
  [ {| user.name := Py.lit "X"; user.id := Py.lit "1" |} ].

Definition roles : list group.role :=
  [ {| group.name := Py.lit "admin"; group.id := Py.lit "r-admin" |};
    {| group.name := Py.lit "viewer"; group.id := Py.lit "r-viewer" |} ].

End scenario.

(** ** The two scripts around the selector and the picker

    [main] of either file reads the operator's answers with [input], calls
    the HTTP helpers and ends by falling off its end, by [sys.exit], or by
    an exception that the [__main__] block turns into a message and
    [sys.exit(1)].  The HTTP helpers ([retrieve_groups], [get_roles],
    [create_user], [create_group]) catch every exception themselves; what
    they return depends on the server alone and is a parameter here. *)
Module proc.

(** [not x] for a string or a list. *)
Definition falsy {A : Type} (x : list A) : bool :=
  match x with
  | [] => true
  | _ :: _ => false
  end.

Section Proc.

Variables Ev Err : Type.

(** How a piece of [main] can stop short: [sys.exit(status)], an
    exception, or [getch] waiting for a key that is not there yet. *)
Inductive stop :=
| SysExit (status : Z)
| Raise (e : Err)
| Blocked.

(** A piece of [main]: from the lines still on the standard input to what
    it writes or calls, and either a stop or a value with the lines left. *)
Definition t (A : Type) : Type :=
  list Py.str -> list Ev * (stop + A * list Py.str).

Definition ret {A : Type} (a : A) : t A :=
  fun stdin => ([], inr (a, stdin)).

Definition bind {A B : Type} (m : t A) (k : A -> t B) : t B :=
  fun stdin =>
    match m stdin with
    | (out, inl s) => (out, inl s)
    | (out, inr (a, rest)) =>
        match k a rest with
        | (out', r) => (out ++ out', r)
        end
    end.

Definition emit (e : Ev) : t unit :=
  fun stdin => ([e], inr (tt, stdin)).

Definition halt {A : Type} (s : stop) : t A :=
  fun _ => ([], inl s).

(** The read of [input()]: the next line, or [eof] raised at end of file. *)
Definition read_line (eof : Err) : t Py.str :=
  fun stdin =>
    match stdin with
    | [] => ([], inl (Raise eof))
    | line :: rest => ([], inr (line, rest))
    end.

End Proc.

Arguments SysExit {Err} status.
Arguments Raise {Err} e.
Arguments Blocked {Err}.
Arguments ret {Ev Err A} a.
Arguments bind {Ev Err A B} m k.
Arguments emit {Ev Err} e.
Arguments halt {Ev Err A} s.
Arguments read_line {Ev Err} eof.

(** How the process ends, or that it is still waiting for a key. *)
Inductive ending :=
| Exit (status : Z)
| AwaitingKey.

End proc.

Notation "x <-- m ;; k" := (proc.bind m (fun x => k))
  (at level 61, m at next level, right associativity).
Notation "m ;;; k" := (proc.bind m (fun _ => k))
  (at level 61, right associativity).

(** *** [user.py]: [main] and the [__main__] block *)
Module user_main.

Definition APPLICATION_ID : Py.str :=
  Py.lit "0c2707b5-a830-435a-8c4d-7234d02d6aee".

Inductive question := AskEmail | AskFirstName | AskLastName.

Inductive error :=
| EOFError
| InSelector (e : Py.exn).

Section Main.

(** The decoded JSON document [create_user] returns, and [bool(user)]. *)
Variable document : Type.
Variable truthy : document -> bool.

Inductive message :=
| AllFieldsRequired
| NoGroupsAvailable
| NoGroupSelected
| UserCreated (user : document)
| FailedToCreateUser
| UnexpectedError (e : error).

Inductive event :=
| Input (q : question)
| Say (m : message)
| RetrieveGroups
| Selector (options : list user.group)
| CreateUser (email first_name last_name group_id application_id : Py.str).

Variable strip : Py.str -> Py.str.
Variable lower : Py.str -> Py.str.

(** What [retrieve_groups()] returns, the keys [getch] delivers during the
    curses session, and what [create_user] returns for its arguments. *)
Variable groups_fetched : list user.group.
Variable keys : list Z.
Variable create_user :
  Py.str -> Py.str -> Py.str -> Py.str -> Py.str -> option document.

(** [input(prompt).strip()] *)
Definition input (q : question) : proc.t event error Py.str :=
  proc.emit (Input q) ;;;
  line <-- proc.read_line EOFError ;;
  proc.ret (strip line).

(** [curses.wrapper(display_filterable_list, groups)] *)
Definition select (groups : list user.group)
  : proc.t event error (option Py.str) :=
  proc.emit (Selector groups) ;;;
  match user.display_filterable_list lower groups keys with
  | user.Active _ => proc.halt proc.Blocked
  | user.Returned r => proc.ret r
  | user.Raised e => proc.halt (proc.Raise (InSelector e))
  end.

(** [not group_id] *)
Definition no_selection (group_id : option Py.str) : bool :=
  match group_id with
  | None => true
  | Some i => proc.falsy i
  end.

Definition main : proc.t event error unit :=
  email <-- input AskEmail ;;
  first_name <-- input AskFirstName ;;
  last_name <-- input AskLastName ;;
  if proc.falsy email || proc.falsy first_name || proc.falsy last_name then
    proc.emit (Say AllFieldsRequired) ;;;
    proc.halt (proc.SysExit 1)
  else
    proc.emit RetrieveGroups ;;;
    let groups := groups_fetched in
    if proc.falsy groups then
      proc.emit (Say NoGroupsAvailable) ;;;
      proc.halt (proc.SysExit 1)
    else
      group_id <-- select groups ;;
      match group_id with
      | None =>
          proc.emit (Say NoGroupSelected) ;;;
          proc.halt (proc.SysExit 1)
      | Some gid =>
          if proc.falsy gid then
            proc.emit (Say NoGroupSelected) ;;;
            proc.halt (proc.SysExit 1)
          else
            proc.emit
              (CreateUser email first_name last_name gid APPLICATION_ID) ;;;
            match create_user email first_name last_name gid APPLICATION_ID
            with
            | Some user =>
                if truthy user then proc.emit (Say (UserCreated user))
                else proc.emit (Say FailedToCreateUser)
            | None => proc.emit (Say FailedToCreateUser)
            end
      end.

(** The [__main__] block: [try: main()] with its [except Exception]. *)
Definition script (stdin : list Py.str) : list event * proc.ending :=
  match main stdin with
  | (out, inr _) => (out, proc.Exit 0)
  | (out, inl (proc.SysExit status)) => (out, proc.Exit status)
  | (out, inl (proc.Raise e)) =>
      (out ++ [Say (UnexpectedError e)], proc.Exit 1)
  | (out, inl proc.Blocked) => (out, proc.AwaitingKey)
  end.

End Main.

Arguments AllFieldsRequired {document}.
Arguments NoGroupsAvailable {document}.
Arguments NoGroupSelected {document}.
Arguments UserCreated {document} user.
Arguments FailedToCreateUser {document}.
Arguments UnexpectedError {document} e.
Arguments Input {document} q.
Arguments Say {document} m.
Arguments RetrieveGroups {document}.
Arguments Selector {document} options.
Arguments CreateUser {document} email first_name last_name group_id
  application_id.

(** The event is a call of [create_user]. *)
Definition is_create_user {document : Type} (e : event document) : Prop :=
  match e with
  | CreateUser _ _ _ _ _ => True
  | _ => False
  end.

End user_main.

(** *** [group.py]: [main] and the [__main__] block *)
Module group_main.

Inductive question :=
| AskGroupName
| AskBlockchainAddress
| AskEmail
| AskGroupId.

Inductive error :=
| EOFError
| InPicker (e : Py.exn).

Section Main.

(** The decoded JSON document [create_group] returns, and [bool(group)]. *)
Variable document : Type.
Variable truthy : document -> bool.

Inductive message :=
| GroupNameEmpty
| BlockchainAddressEmpty
| EmailEmpty
| NoRolesFound
| NoRolesSelected
| GroupCreated (group : document)
| FailedToCreateGroup
| UnexpectedError (e : error).

Inductive event :=
| Input (q : question)
| Say (m : message)
| GetRoles
| Picker (o : group.output)
| CreateGroup (name blockchain_address : Py.str) (role_ids : list Py.str)
    (email : Py.str) (group_id : option Py.str).

Variable strip : Py.str -> Py.str.
Variable int : Py.str -> option Z.

(** What [get_roles()] returns ([None] on any failure), and what
    [create_group] returns for its arguments. *)
Variable roles_fetched : option (list group.role).
Variable create_group :
  Py.str -> Py.str -> list Py.str -> Py.str -> option Py.str ->
  option document.

(** [input(prompt).strip()] *)
Definition input (q : question) : proc.t event error Py.str :=
  proc.emit (Input q) ;;;
  line <-- proc.read_line EOFError ;;
  proc.ret (strip line).

(** [x or None] *)
Definition or_None (x : Py.str) : option Py.str :=
  if proc.falsy x then None else Some x.

(** The call [select_roles(roles)]: the menu is written, then the answer
    is read; at end of file [input] raises outside the [try] block. *)
Definition select_roles (roles : list group.role)
  : proc.t event error (list Py.str) :=
  fun stdin =>
    match stdin with
    | [] =>
        (map Picker
           (group.PrintHeader :: group.print_roles 0 roles ++ [group.Prompt]),
         inl (proc.Raise EOFError))
    | line :: rest =>
        match group.select_roles strip int roles line with
        | (out, group.Returned ids) => (map Picker out, inr (ids, rest))
        | (out, group.Exited status) =>
            (map Picker out, inl (proc.SysExit status))
        | (out, group.Raised e) =>
            (map Picker out, inl (proc.Raise (InPicker e)))
        end
    end.

Definition main : proc.t event error unit :=
  group_name <-- input AskGroupName ;;
  if proc.falsy group_name then
    proc.emit (Say GroupNameEmpty) ;;;
    proc.halt (proc.SysExit 1)
  else
    blockchain_address <-- input AskBlockchainAddress ;;
    if proc.falsy blockchain_address then
      proc.emit (Say BlockchainAddressEmpty) ;;;
      proc.halt (proc.SysExit 1)
    else
      email <-- input AskEmail ;;
      if proc.falsy email then
        proc.emit (Say EmailEmpty) ;;;
        proc.halt (proc.SysExit 1)
      else
        group_id <-- input AskGroupId ;;
        let group_id := or_None group_id in
        proc.emit GetRoles ;;;
        match roles_fetched with
        | None =>
            proc.emit (Say NoRolesFound) ;;;
            proc.halt (proc.SysExit 1)
        | Some roles =>
            if proc.falsy roles then
              proc.emit (Say NoRolesFound) ;;;
              proc.halt (proc.SysExit 1)
            else
              selected_role_ids <-- select_roles roles ;;
              if proc.falsy selected_role_ids then
                proc.emit (Say NoRolesSelected) ;;;
                proc.halt (proc.SysExit 1)
              else
                proc.emit
                  (CreateGroup group_name blockchain_address
                     selected_role_ids email group_id) ;;;
                match create_group group_name blockchain_address
                        selected_role_ids email group_id with
                | Some group =>
                    if truthy group then proc.emit (Say (GroupCreated group))
                    else proc.emit (Say FailedToCreateGroup)
                | None => proc.emit (Say FailedToCreateGroup)
                end
        end.

(** The [__main__] block: [try: main()] with its [except Exception]. *)
Definition script (stdin : list Py.str) : list event * proc.ending :=
  match main stdin with
  | (out, inr _) => (out, proc.Exit 0)
  | (out, inl (proc.SysExit status)) => (out, proc.Exit status)
  | (out, inl (proc.Raise e)) =>
      (out ++ [Say (UnexpectedError e)], proc.Exit 1)
  | (out, inl proc.Blocked) => (out, proc.AwaitingKey)
  end.

End Main.

Arguments GroupNameEmpty {document}.
Arguments BlockchainAddressEmpty {document}.
Arguments EmailEmpty {document}.
Arguments NoRolesFound {document}.
Arguments NoRolesSelected {document}.
Arguments GroupCreated {document} group.
Arguments FailedToCreateGroup {document}.
Arguments UnexpectedError {document} e.
Arguments Input {document} q.
Arguments Say {document} m.
Arguments GetRoles {document}.
Arguments Picker {document} o.
Arguments CreateGroup {document} name blockchain_address role_ids email
  group_id.

(** The event is a call of [create_group]. *)
Definition is_create_group {document : Type} (e : event document) : Prop :=
  match e with
  | CreateGroup _ _ _ _ _ => True
  | _ => False
  end.

End group_main.

(** ** Typing into the selector *)
Module typing.





(** The rows of a frame drawn in reverse video. *)
Definition highlighted (frame : list user.draw) : list user.draw :=
  filter user.reverse frame.

End typing.

(** * Properties *)

(** ** Built-ins *)

Lemma startswith_prefix (p s : Py.str) :
  Py.startswith p s = true <-> exists post, s = p ++ post.
Proof.
  revert s; induction p as [|a p IH]; intros s; simpl.
  - split; [intros _; now exists s | reflexivity].
  - destruct s as [|b s].
    + split; [discriminate | intros [post H]; discriminate].
    + rewrite andb_true_iff, Z.eqb_eq, IH. split.
      * intros [-> [post ->]]. now exists post.
      * intros [post H]. injection H as -> ->. split; [reflexivity | now exists post].
Qed.

Lemma contains_infix (sub s : Py.str) :
  Py.contains sub s = true <-> exists pre post, s = pre ++ sub ++ post.
Proof.
  induction s as [|c s IH]; simpl; rewrite orb_true_iff, startswith_prefix.
  - split.
    + intros [[post H] | H]; [| discriminate]. now exists [], post.
    + intros [pre [post H]]. left. destruct pre as [|x pre]; [| discriminate].
      now exists post.
  - rewrite IH. split.
    + intros [[post H] | [pre [post H]]].
      * now exists [], post.
      * exists (c :: pre), post. simpl. now rewrite H.
    + intros [[|x pre] [post H]].
      * left. now exists post.
      * right. injection H as _ H. now exists pre, post.
Qed.

Lemma matches_ci_substring lower (s : Py.str) (opt : user.group) :
  user.matches lower s opt = true <-> user.ci_substring lower s (user.name opt).
Proof. unfold user.matches, user.ci_substring. apply contains_infix. Qed.

Lemma getitem_nat {A : Type} (l : list A) (i : Z) :
  0 <= i < Z.of_nat (length l) ->
  Py.getitem l i = nth_error l (Z.to_nat i).
Proof.
  intros H. unfold Py.getitem.
  destruct (Z.ltb_spec i 0); [lia |].
  destruct (Z.leb_spec 0 i); [| lia].
  destruct (Z.ltb_spec i (Z.of_nat (length l))); [reflexivity | lia].
Qed.

Lemma getitem_in_range {A : Type} (l : list A) (i : Z) :
  0 <= i < Z.of_nat (length l) -> exists x, Py.getitem l i = Some x.
Proof.
  intros H. rewrite getitem_nat by exact H.
  destruct (nth_error l (Z.to_nat i)) eqn:E; [now exists a |].
  apply nth_error_None in E. lia.
Qed.

Lemma getitem_past_end {A : Type} (l : list A) (i : Z) :
  Z.of_nat (length l) <= i -> 0 <= i -> Py.getitem l i = None.
Proof.
  intros H H0. unfold Py.getitem.
  destruct (Z.ltb_spec i 0); [lia |].
  destruct (Z.ltb_spec i (Z.of_nat (length l))); [lia |].
  now rewrite andb_false_r.
Qed.

Lemma getitem_nil {A : Type} (i : Z) : Py.getitem (@nil A) i = None.
Proof.
  unfold Py.getitem. simpl.
  destruct (i <? 0);
    match goal with
    | |- context [(0 <=? ?j) && (?j <? 0)] =>
        destruct (Z.leb_spec 0 j); destruct (Z.ltb_spec j 0);
        try reflexivity; lia
    end.
Qed.

Lemma but_last_snoc {A : Type} (s : list A) (c : A) :
  Py.but_last (s ++ [c]) = s.
Proof.
  unfold Py.but_last. rewrite length_app. simpl.
  replace (length s + 1 - 1)%nat with (length s + 0)%nat by lia.
  rewrite firstn_app_2. simpl. apply app_nil_r.
Qed.

(** ** The filtered view *)

Lemma subsequence_where_functional {A : Type} (P : A -> Prop)
  (l a b : list A) :
  user.subsequence_where P l a -> user.subsequence_where P l b -> a = b.
Proof.
  intros Ha. revert b.
  induction Ha as [| x l sub Hx Ha IH | x l sub Hx Ha IH]; intros b Hb;
    inversion Hb; subst; try contradiction.
  - reflexivity.
  - f_equal. now apply IH.
  - now apply IH.
Qed.

Lemma filtered_options_selects lower (options : list user.group)
  (s : Py.str) :
  user.subsequence_where
    (fun opt => user.ci_substring lower s (user.name opt))
    options (user.filtered_options lower options s).
Proof.
  induction options as [|opt rest IH]; simpl.
  - constructor.
  - destruct (user.matches lower s opt) eqn:E.
    + apply user.sw_keep; [now apply matches_ci_substring | exact IH].
    + apply user.sw_skip; [| exact IH].
      intros H. apply matches_ci_substring in H. congruence.
Qed.

(** C1. For every option list and every search text, the view the
    selector computes is exactly the subsequence of the list made of the
    options whose label contains the search text as a case-insensitive
    substring ([s.lower()] occurs inside [label.lower()]), in the order of
    the list: a list is that subsequence if and only if it is the computed
    view. *)
Theorem filtered_options_exact :
  forall (lower : Py.str -> Py.str) (L : list user.group) (s : Py.str)
         (view : list user.group),
    user.filtered_options lower L s = view <->
    user.subsequence_where
      (fun opt => user.ci_substring lower s (user.name opt)) L view.
Proof.
  intros lower L s view. split.
  - intros <-. apply filtered_options_selects.
  - intros H. eapply subsequence_where_functional; [| exact H].
    apply filtered_options_selects.
Qed.

(** ** The key dispatch *)


(** Every key falls in exactly one branch of the dispatch. *)
Lemma key_class (key : Z) :
  user.is_arrow key \/ user.is_backspace key \/ user.is_enter key \/
  user.is_escape key \/ user.is_other key.
Proof.
  unfold user.is_other, user.is_arrow, user.is_backspace, user.is_enter,
    user.is_escape, curses.KEY_UP, curses.KEY_DOWN, curses.KEY_BACKSPACE,
    curses.KEY_ENTER.
  lia.
Qed.

Ltac key_consts :=
  unfold user.ascii_key, user.is_other in *;
  unfold user.is_arrow, user.is_backspace, user.is_enter, user.is_escape,
    user.is_printable in *;
  unfold curses.KEY_UP, curses.KEY_DOWN, curses.KEY_BACKSPACE,
    curses.KEY_ENTER in *.

Lemma on_key_up lower options st :
  user.on_key lower options st curses.KEY_UP =
  match Py.mod_ (user.current_row st - 1)
          (Z.of_nat (length (user.view_of lower options st))) with
  | Some r => user.Continue {| user.current_row := r;
                               user.search_text := user.search_text st |}
  | None => user.Raise Py.ZeroDivisionError
  end.
Proof. reflexivity. Qed.

Lemma on_key_down lower options st :
  user.on_key lower options st curses.KEY_DOWN =
  match Py.mod_ (user.current_row st + 1)
          (Z.of_nat (length (user.view_of lower options st))) with
  | Some r => user.Continue {| user.current_row := r;
                               user.search_text := user.search_text st |}
  | None => user.Raise Py.ZeroDivisionError
  end.
Proof. reflexivity. Qed.

Lemma on_key_backspace lower options st key :
  user.is_backspace key ->
  user.on_key lower options st key =
  user.Continue {| user.current_row := user.current_row st;
                   user.search_text := Py.but_last (user.search_text st) |}.
Proof. intros [-> | ->]; reflexivity. Qed.

Lemma on_key_enter lower options st key :
  user.is_enter key ->
  user.on_key lower options st key =
  match Py.getitem (user.view_of lower options st) (user.current_row st) with
  | Some opt => user.Return (Some (user.id opt))
  | None => user.Raise Py.IndexError
  end.
Proof. intros [-> | [-> | ->]]; reflexivity. Qed.

Lemma on_key_escape lower options st :
  user.on_key lower options st 27 = user.Return None.
Proof. reflexivity. Qed.

Lemma on_key_other lower options st key :
  user.is_other key ->
  user.on_key lower options st key =
  match Py.chr key with
  | Some c => user.Continue {| user.current_row := user.current_row st;
                               user.search_text := user.search_text st ++ c |}
  | None => user.Raise Py.ValueError
  end.
Proof.
  intros H. unfold user.on_key. cbn [existsb]. key_consts.
  repeat match goal with
         | |- context [?a =? ?b] =>
             destruct (Z.eqb_spec a b); [exfalso; lia |]
         end.
  reflexivity.
Qed.

Lemma mod_positive (a n : Z) :
  0 < n -> Py.mod_ a n = Some (a mod n).
Proof.
  intros H. unfold Py.mod_. destruct (Z.eqb_spec n 0); [lia | reflexivity].
Qed.

Lemma run_app lower options st (keys rest : list Z) :
  user.run lower options st (keys ++ rest) =
  match user.run lower options st keys with
  | user.Active st' => user.run lower options st' rest
  | r => r
  end.
Proof.
  revert st; induction keys as [|key keys IH]; intros st; simpl.
  - reflexivity.
  - destruct (user.on_key lower options st key); auto.
Qed.

(** The complete table of what a key does: which keys keep the loop
    going, which return, and which raise. *)
Lemma on_key_outcomes lower options st key :
  let view := user.view_of lower options st in
  match user.on_key lower options st key with
  | user.Continue st' =>
      (user.is_arrow key /\ view <> [] /\
       user.search_text st' = user.search_text st) \/
      (user.is_backspace key /\ user.current_row st' = user.current_row st) \/
      (user.is_other key /\ Py.chr key <> None /\
       user.current_row st' = user.current_row st)
  | user.Return (Some i) =>
      user.is_enter key /\
      exists opt, Py.getitem view (user.current_row st) = Some opt /\
                  user.id opt = i
  | user.Return None => user.is_escape key
  | user.Raise Py.ZeroDivisionError => user.is_arrow key /\ view = []
  | user.Raise Py.IndexError =>
      user.is_enter key /\ Py.getitem view (user.current_row st) = None
  | user.Raise Py.ValueError => user.is_other key /\ Py.chr key = None
  end.
Proof.
  intros view.
  assert (Hlen : forall a,
             match Py.mod_ a (Z.of_nat (length view)) with
             | Some _ => view <> []
             | None => view = []
             end).
  { intros a. unfold Py.mod_.
    destruct (Z.eqb_spec (Z.of_nat (length view)) 0) as [E | E].
    - destruct view; [reflexivity | simpl in E; lia].
    - intros ->. now apply E. }
  destruct (key_class key) as [[-> | ->] | [Hb | [He | [-> | Ho]]]].
  - rewrite on_key_up. fold view. specialize (Hlen (user.current_row st - 1)).
    destruct (Py.mod_ _ _); simpl.
    + left. repeat split; [now left | exact Hlen].
    + split; [now left | exact Hlen].
  - rewrite on_key_down. fold view. specialize (Hlen (user.current_row st + 1)).
    destruct (Py.mod_ _ _); simpl.
    + left. repeat split; [now right | exact Hlen].
    + split; [now right | exact Hlen].
  - rewrite on_key_backspace by exact Hb. right; left. now split.
  - rewrite on_key_enter by exact He. fold view.
    destruct (Py.getitem view (user.current_row st)) as [opt |] eqn:E.
    + split; [exact He | now exists opt].
    + now split.
  - rewrite on_key_escape. reflexivity.
  - rewrite on_key_other by exact Ho.
    destruct (Py.chr key) eqn:E; simpl.
    + right; right. split; [exact Ho | split; [discriminate | reflexivity]].
    + now split.
Qed.

(** ** ASCII sessions *)

Lemma Forall_but_last {A : Type} (P : A -> Prop) (s : list A) :
  Forall P s -> Forall P (Py.but_last s).
Proof.
  intros H. rewrite <- (firstn_skipn (length s - 1) s) in H.
  apply Forall_app in H. exact (proj1 H).
Qed.

Lemma filtered_options_ascii lower options s :
  Py.lowers_ascii lower -> user.ascii_names options ->
  Forall Py.is_ascii s ->
  user.filtered_options lower options s =
  user.filtered_options Py.ascii_lower options s.
Proof.
  intros Hlow Hnames Hs.
  induction Hnames as [| opt rest Hopt _ IH]; simpl; [reflexivity |].
  unfold user.matches. rewrite (Hlow s Hs), (Hlow _ Hopt), IH. reflexivity.
Qed.

Lemma on_key_ascii lower options st key :
  Py.lowers_ascii lower -> user.ascii_names options ->
  Forall Py.is_ascii (user.search_text st) ->
  user.on_key lower options st key =
  user.on_key Py.ascii_lower options st key.
Proof.
  intros Hlow Hnames Hs. unfold user.on_key.
  now rewrite (filtered_options_ascii lower options _ Hlow Hnames Hs).
Qed.

Lemma on_key_keeps_ascii lower options st key st' :
  user.ascii_key key -> Forall Py.is_ascii (user.search_text st) ->
  user.on_key lower options st key = user.Continue st' ->
  Forall Py.is_ascii (user.search_text st').
Proof.
  intros Hk Hs H.
  destruct (key_class key) as [[-> | ->] | [Hb | [He | [-> | Ho]]]].
  - rewrite on_key_up in H. destruct (Py.mod_ _ _); [| discriminate].
    injection H as <-. exact Hs.
  - rewrite on_key_down in H. destruct (Py.mod_ _ _); [| discriminate].
    injection H as <-. exact Hs.
  - rewrite on_key_backspace in H by exact Hb. injection H as <-.
    now apply Forall_but_last.
  - rewrite on_key_enter in H by exact He.
    destruct (Py.getitem _ _); discriminate.
  - rewrite on_key_escape in H. discriminate.
  - rewrite on_key_other in H by exact Ho. unfold Py.chr in H.
    destruct (Z.leb_spec 0 key); simpl in H; [| discriminate].
    destruct (key <=? 1114111); [| discriminate].
    injection H as <-. simpl. apply Forall_app. split; [exact Hs |].
    constructor; [| constructor].
    unfold Py.is_ascii. destruct Ho as (Ha & Hb & He & _).
    destruct Hk as [Hk | [Hk | [Hk | Hk]]]; [lia | tauto ..].
Qed.

(** On an ASCII session the selector only sees the ASCII part of
    [str.lower]. *)
Lemma run_ascii lower options st keys :
  Py.lowers_ascii lower -> user.ascii_names options ->
  Forall Py.is_ascii (user.search_text st) ->
  Forall user.ascii_key keys ->
  user.run lower options st keys = user.run Py.ascii_lower options st keys.
Proof.
  intros Hlow Hnames Hs Hkeys. revert st Hs.
  induction Hkeys as [| key keys Hk _ IH]; intros st Hs; simpl.
  - reflexivity.
  - rewrite <- (on_key_ascii lower options st key Hlow Hnames Hs).
    destruct (user.on_key lower options st key) as [st' | |] eqn:E;
      try reflexivity.
    apply IH. exact (on_key_keeps_ascii lower options st key st' Hk Hs E).
Qed.

Lemma ascii_lower_lowers_ascii : Py.lowers_ascii Py.ascii_lower.
Proof. intros s _. reflexivity. Qed.

(** Closes the side conditions of [run_ascii] on concrete data. *)
Ltac ascii_session :=
  cbn [Py.lit app];
  repeat match goal with
         | |- Forall _ _ => constructor
         | |- Py.is_ascii ?c =>
             let v := eval vm_compute in c in
             change (Py.is_ascii v); unfold Py.is_ascii; lia
         | |- user.ascii_names _ => unfold user.ascii_names
         | |- user.ascii_key ?k =>
             let v := eval vm_compute in k in
             change (user.ascii_key v); key_consts; lia
         end.

(** Scenarios 1 and 2: every team name contains an "a" or an "A", none
    contains a "z". *)
Example scenario_views lower :
  Py.lowers_ascii lower ->
  user.filtered_options lower scenario.teams (Py.lit "a") = scenario.teams /\
  user.filtered_options lower scenario.teams (Py.lit "z") = [].
Proof.
  intros Hlow.
  rewrite !(filtered_options_ascii lower) by (try exact Hlow; ascii_session).
  split; reflexivity.
Qed.

(** ** Navigation *)

Section Navigation.

Variable lower : Py.str -> Py.str.
Variable options : list user.group.
Variable text : Py.str.
Variable n : Z.
Hypothesis view_length :
  Z.of_nat (length (user.filtered_options lower options text)) = n.
Hypothesis view_nonempty : 0 < n.

Lemma down_at_row r :
  user.on_key lower options
    {| user.current_row := r; user.search_text := text |} curses.KEY_DOWN =
  user.Continue
    {| user.current_row := (r + 1) mod n; user.search_text := text |}.
Proof.
  rewrite on_key_down. unfold user.view_of. simpl.
  rewrite view_length, mod_positive by exact view_nonempty.
  reflexivity.
Qed.

Lemma up_at_row r :
  user.on_key lower options
    {| user.current_row := r; user.search_text := text |} curses.KEY_UP =
  user.Continue
    {| user.current_row := (r - 1) mod n; user.search_text := text |}.
Proof.
  rewrite on_key_up. unfold user.view_of. simpl.
  rewrite view_length, mod_positive by exact view_nonempty.
  reflexivity.
Qed.

Lemma downs_at_row (k : nat) : forall r,
  0 <= r < n ->
  user.run lower options
    {| user.current_row := r; user.search_text := text |}
    (repeat curses.KEY_DOWN k) =
  user.Active {| user.current_row := (r + Z.of_nat k) mod n;
                 user.search_text := text |}.
Proof.
  induction k as [|k IH]; intros r Hr.
  - simpl. rewrite Z.add_0_r, Z.mod_small by exact Hr. reflexivity.
  - cbn [repeat user.run]. rewrite down_at_row.
    rewrite IH by (apply Z.mod_pos_bound; exact view_nonempty).
    do 2 f_equal. rewrite Zplus_mod_idemp_l. f_equal. lia.
Qed.

End Navigation.

(** C5. In a state whose view has [n > 0] items and whose cursor [c] lies
    in [0, n): "down" moves the cursor to [(c+1) mod n], that is to [0]
    from the last item; "up" moves it to [(c-1) mod n], that is to the last
    item from [0]; neither changes the search text; "down" pressed [n]
    times brings the selector back to the same state, and so does "up"
    followed by "down". *)
Theorem navigation_wraps :
  forall (lower : Py.str -> Py.str) (options : list user.group)
         (st : user.state) (n c : Z),
    Z.of_nat (length (user.view_of lower options st)) = n ->
    0 < n ->
    user.current_row st = c ->
    0 <= c < n ->
    user.on_key lower options st curses.KEY_DOWN =
      user.Continue {| user.current_row := (c + 1) mod n;
                       user.search_text := user.search_text st |} /\
    user.on_key lower options st curses.KEY_UP =
      user.Continue {| user.current_row := (c - 1) mod n;
                       user.search_text := user.search_text st |} /\
    (c = n - 1 -> (c + 1) mod n = 0) /\
    (c = 0 -> (c - 1) mod n = n - 1) /\
    user.run lower options st (repeat curses.KEY_DOWN (Z.to_nat n)) =
      user.Active st /\
    user.run lower options st [curses.KEY_UP; curses.KEY_DOWN] =
      user.Active st.
Proof.
  intros lower options [row text] n c Hlen Hn Hc Hrange.
  unfold user.view_of in Hlen. simpl in Hlen, Hc |- *. subst row.
  repeat split.
  - exact (down_at_row lower options text n Hlen Hn c).
  - exact (up_at_row lower options text n Hlen Hn c).
  - intros ->. replace (n - 1 + 1) with n by lia. apply Z_mod_same_full.
  - intros ->. replace (0 - 1) with (n - 1 + (-1) * n) by lia.
    rewrite Z_mod_plus_full. apply Z.mod_small. lia.
  - rewrite (downs_at_row lower options text n Hlen Hn) by exact Hrange.
    do 2 f_equal. rewrite Z2Nat.id by lia.
    replace (c + n) with (c + 1 * n) by lia.
    rewrite Z_mod_plus_full. apply Z.mod_small. exact Hrange.
  - cbn [user.run].
    rewrite (up_at_row lower options text n Hlen Hn c).
    rewrite (down_at_row lower options text n Hlen Hn).
    do 2 f_equal.
    rewrite Zplus_mod_idemp_l. replace (c - 1 + 1) with c by lia.
    apply Z.mod_small. exact Hrange.
Qed.

Lemma navigation_wraps_witness :
  user.on_key Py.ascii_lower scenario.teams
    {| user.current_row := 2; user.search_text := [] |} curses.KEY_DOWN =
    user.Continue {| user.current_row := (2 + 1) mod 3;
                     user.search_text := [] |} /\
  user.run Py.ascii_lower scenario.teams
    {| user.current_row := 2; user.search_text := [] |}
    (repeat curses.KEY_DOWN (Z.to_nat 3)) =
    user.Active {| user.current_row := 2; user.search_text := [] |}.
Proof.
  pose proof (navigation_wraps Py.ascii_lower scenario.teams
                {| user.current_row := 2; user.search_text := [] |} 3 2) as H.
  destruct H as (Hd & _ & _ & _ & Hn & _);
    [reflexivity | lia | reflexivity | lia |].
  split; [exact Hd | exact Hn].
Defined.

(** ** Leaving the loop *)

(** C6. Escape returns the cancellation result [None] at once, whatever
    the search text, the cursor and the view are: in any state the key 27
    makes the turn return [None]; a key stream in which Escape follows keys
    that left the selector active returns [None] and ignores what comes
    after; and [None] differs from every selected identifier. *)
Theorem escape_cancels :
  forall (lower : Py.str -> Py.str) (options : list user.group)
         (st : user.state) (keys rest : list Z),
    user.on_key lower options st 27 = user.Return None /\
    user.run lower options st (keys ++ 27 :: rest) =
      match user.run lower options st keys with
      | user.Active _ => user.Returned None
      | ended => ended
      end /\
    forall i : Py.str, user.Returned None <> user.Returned (Some i).
Proof.
  intros lower options st keys rest. repeat split.
  - rewrite run_app. destruct (user.run lower options st keys); reflexivity.
  - discriminate.
Qed.

(** ** The cursor *)

Lemma on_key_row_nonneg lower options st key st' :
  0 <= user.current_row st ->
  user.on_key lower options st key = user.Continue st' ->
  0 <= user.current_row st'.
Proof.
  intros Hrow H.
  destruct (key_class key) as [[-> | ->] | [Hb | [He | [-> | Ho]]]].
  - rewrite on_key_up in H. unfold Py.mod_ in H.
    destruct (Z.eqb_spec (Z.of_nat (length (user.view_of lower options st))) 0);
      [discriminate |].
    injection H as <-. simpl. apply Z.mod_pos_bound. lia.
  - rewrite on_key_down in H. unfold Py.mod_ in H.
    destruct (Z.eqb_spec (Z.of_nat (length (user.view_of lower options st))) 0);
      [discriminate |].
    injection H as <-. simpl. apply Z.mod_pos_bound. lia.
  - rewrite on_key_backspace in H by exact Hb. now injection H as <-.
  - rewrite on_key_enter in H by exact He.
    destruct (Py.getitem _ _); discriminate.
  - rewrite on_key_escape in H. discriminate.
  - rewrite on_key_other in H by exact Ho.
    destruct (Py.chr key); [| discriminate]. now injection H as <-.
Qed.

Lemma run_row_nonneg lower options keys : forall st st',
  0 <= user.current_row st ->
  user.run lower options st keys = user.Active st' ->
  0 <= user.current_row st'.
Proof.
  induction keys as [|key keys IH]; intros st st' Hrow H; simpl in H.
  - now injection H as <-.
  - destruct (user.on_key lower options st key) as [st1 | |] eqn:E;
      try discriminate.
    apply (IH st1 st'); [| exact H].
    exact (on_key_row_nonneg lower options st key st1 Hrow E).
Qed.

(** C10. The cursor is never negative: it starts at 0; an up or down key
    that updates it does so in a view of positive length and leaves it in
    [0, length); no key turns a non-negative cursor into a negative one;
    hence after any stream of keys that leaves the selector active the
    cursor is at least 0. *)
Theorem cursor_never_negative :
  forall (lower : Py.str -> Py.str) (options : list user.group),
    user.current_row user.initial = 0 /\
    (forall st key st',
        user.is_arrow key ->
        user.on_key lower options st key = user.Continue st' ->
        0 < Z.of_nat (length (user.view_of lower options st)) /\
        0 <= user.current_row st'
          < Z.of_nat (length (user.view_of lower options st))) /\
    (forall st key st',
        0 <= user.current_row st ->
        user.on_key lower options st key = user.Continue st' ->
        0 <= user.current_row st') /\
    (forall keys st',
        user.display_filterable_list lower options keys = user.Active st' ->
        0 <= user.current_row st').
Proof.
  intros lower options. repeat apply conj.
  - reflexivity.
  - intros st key st' Hk H.
    assert (Hmod : forall a,
               Py.mod_ a (Z.of_nat (length (user.view_of lower options st)))
               = Some (user.current_row st') ->
               0 < Z.of_nat (length (user.view_of lower options st)) /\
               0 <= user.current_row st'
                 < Z.of_nat (length (user.view_of lower options st))).
    { intros a Ha. unfold Py.mod_ in Ha.
      destruct (Z.eqb_spec (Z.of_nat (length (user.view_of lower options st))) 0);
        [discriminate |].
      injection Ha as <-. split; [lia | apply Z.mod_pos_bound; lia]. }
    destruct Hk as [-> | ->].
    + rewrite on_key_up in H.
      destruct (Py.mod_ _ _) eqn:E; [| discriminate].
      injection H as <-. exact (Hmod _ E).
    + rewrite on_key_down in H.
      destruct (Py.mod_ _ _) eqn:E; [| discriminate].
      injection H as <-. exact (Hmod _ E).
  - intros st key st'. apply on_key_row_nonneg.
  - intros keys st' H.
    apply (run_row_nonneg lower options keys user.initial st'); [| exact H].
    simpl. lia.
Qed.

Lemma cursor_never_negative_witness :
  0 <= user.current_row
         {| user.current_row := 2; user.search_text := Py.lit "T" |} /\
  0 <= user.current_row
         {| user.current_row := 2; user.search_text := [] |} < 3.
Proof.
  destruct (cursor_never_negative Py.ascii_lower scenario.teams)
    as (_ & Harrow & _ & Hrun).
  split.
  - apply (Hrun [curses.KEY_DOWN; curses.KEY_DOWN; 84]).
    reflexivity.
  - apply (Harrow {| user.current_row := 0; user.search_text := [] |}
             curses.KEY_UP).
    + left. reflexivity.
    + reflexivity.
Defined.

(** ** Editing the search text *)

Lemma printable_is_other key : user.is_printable key -> user.is_other key.
Proof. key_consts. lia. Qed.

Lemma chr_code_point key : 0 <= key <= 1114111 -> Py.chr key = Some [key].
Proof.
  intros H. unfold Py.chr.
  destruct (Z.leb_spec 0 key); [| lia].
  destruct (Z.leb_spec key 1114111); [reflexivity | lia].
Qed.

(** C7. A backspace-class key ([KEY_BACKSPACE] or 127) leaves an empty
    search text empty and removes the last character of a non-empty one; the
    key of a printable character appends that character; the cursor is not
    touched by either.  With the single option ("X", "1") and [str.lower]
    behaving on ASCII text as it does, typing "xyz" and two backspaces
    leaves the search text "x" and the view [("X", "1")]. *)
Theorem text_editing :
  forall (lower : Py.str -> Py.str),
    (forall options st key,
        user.is_backspace key ->
        (user.search_text st = [] ->
         user.on_key lower options st key = user.Continue st) /\
        (forall s c,
            user.search_text st = s ++ [c] ->
            user.on_key lower options st key =
            user.Continue {| user.current_row := user.current_row st;
                             user.search_text := s |})) /\
    (forall options st key,
        user.is_printable key ->
        user.on_key lower options st key =
        user.Continue {| user.current_row := user.current_row st;
                         user.search_text := user.search_text st ++ [key] |}) /\
    (Py.lowers_ascii lower ->
     forall b1 b2,
       user.is_backspace b1 -> user.is_backspace b2 ->
       exists st,
         user.display_filterable_list lower scenario.single
           (Py.lit "xyz" ++ [b1; b2]) = user.Active st /\
         user.search_text st = Py.lit "x" /\
         user.view_of lower scenario.single st = scenario.single).
Proof.
  intros lower. repeat apply conj.
  - intros options st key Hb. rewrite on_key_backspace by exact Hb. split.
    + intros E. destruct st as [r t]. simpl in E |- *. now subst t.
    + intros s c E. now rewrite E, but_last_snoc.
  - intros options st key Hp.
    rewrite on_key_other by (now apply printable_is_other).
    rewrite chr_code_point by (unfold user.is_printable in Hp; lia).
    reflexivity.
  - intros Hlow b1 b2 Hb1 Hb2.
    exists {| user.current_row := 0; user.search_text := Py.lit "x" |}.
    repeat split.
    + unfold user.display_filterable_list.
      destruct Hb1 as [-> | ->], Hb2 as [-> | ->];
        (rewrite (run_ascii lower) by (try exact Hlow; ascii_session));
        reflexivity.
    + unfold user.view_of.
      rewrite (filtered_options_ascii lower)
        by (try exact Hlow; ascii_session).
      reflexivity.
Qed.

Lemma text_editing_witness :
  user.on_key Py.ascii_lower scenario.single
    {| user.current_row := 0; user.search_text := Py.lit "xy" |} 127 =
    user.Continue {| user.current_row := 0; user.search_text := Py.lit "x" |}
  /\
  user.on_key Py.ascii_lower scenario.single
    {| user.current_row := 0; user.search_text := Py.lit "x" |} 121 =
    user.Continue {| user.current_row := 0; user.search_text := Py.lit "xy" |}
  /\
  exists st,
    user.display_filterable_list Py.ascii_lower scenario.single
      (Py.lit "xyz" ++ [curses.KEY_BACKSPACE; 127]) = user.Active st /\
    user.search_text st = Py.lit "x" /\
    user.view_of Py.ascii_lower scenario.single st = scenario.single.
Proof.
  destruct (text_editing Py.ascii_lower) as (Hback & Hchar & Hrun).
  repeat apply conj.
  - apply (proj2 (Hback scenario.single
                    {| user.current_row := 0;
                       user.search_text := Py.lit "xy" |} 127
                    (or_intror eq_refl))
             (Py.lit "x") 121).
    reflexivity.
  - apply (Hchar scenario.single
             {| user.current_row := 0; user.search_text := Py.lit "x" |} 121).
    unfold user.is_printable. lia.
  - apply Hrun.
    + intros s _. reflexivity.
    + left. reflexivity.
    + right. reflexivity.
Defined.

(** ** Scenario 3 *)

Lemma empty_search_shows_all lower (options : list user.group) :
  lower [] = [] -> user.filtered_options lower options [] = options.
Proof.
  intros H. induction options as [|opt rest IH]; simpl; [reflexivity |].
  unfold user.matches. rewrite H, IH.
  now destruct (lower (user.name opt)).
Qed.

(** C8. With the options ("Team A", "1"), ("Team B", "2"), ("Alpha", "3"),
    an empty search text and the cursor at 0 (the initial state), and
    [str.lower] mapping the empty string to itself: "down" pressed twice
    leaves the cursor at index 2, where the view shows "Alpha", and Enter
    then returns the identifier "3". *)
Theorem down_down_enter_returns_3 :
  forall (lower : Py.str -> Py.str),
    lower [] = [] ->
    user.display_filterable_list lower scenario.teams
      [curses.KEY_DOWN; curses.KEY_DOWN] =
      user.Active {| user.current_row := 2; user.search_text := [] |} /\
    option_map user.name
      (Py.getitem
         (user.view_of lower scenario.teams
            {| user.current_row := 2; user.search_text := [] |}) 2) =
      Some (Py.lit "Alpha") /\
    forall enter,
      user.is_enter enter ->
      user.display_filterable_list lower scenario.teams
        [curses.KEY_DOWN; curses.KEY_DOWN; enter] =
      user.Returned (Some (Py.lit "3")).
Proof.
  intros lower Hlow.
  assert (Hview : user.filtered_options lower scenario.teams [] =
                  scenario.teams)
    by exact (empty_search_shows_all lower scenario.teams Hlow).
  assert (Hlen : Z.of_nat
                   (length (user.filtered_options lower scenario.teams []))
                 = 3) by now rewrite Hview.
  assert (H3 : 0 < 3) by lia.
  unfold user.display_filterable_list, user.initial, user.view_of.
  repeat apply conj.
  - cbn [user.run].
    now rewrite !(down_at_row lower scenario.teams [] 3 Hlen H3).
  - cbn [user.search_text]. now rewrite Hview.
  - intros enter He. cbn [user.run].
    rewrite !(down_at_row lower scenario.teams [] 3 Hlen H3).
    rewrite on_key_enter by exact He.
    unfold user.view_of. cbn [user.search_text user.current_row].
    now rewrite Hview.
Qed.

Lemma down_down_enter_returns_3_witness :
  user.display_filterable_list Py.ascii_lower scenario.teams
    [curses.KEY_DOWN; curses.KEY_DOWN; 10] =
  user.Returned (Some (Py.lit "3")).
Proof.
  apply (down_down_enter_returns_3 Py.ascii_lower eq_refl).
  right. left. reflexivity.
Defined.

(** ** The view being empty, and the cursor past its end *)

Lemma view_empty_length lower options st :
  user.view_of lower options st = [] <->
  Z.of_nat (length (user.view_of lower options st)) = 0.
Proof.
  destruct (user.view_of lower options st); simpl; split;
    try reflexivity; try discriminate; lia.
Qed.

(** The drawing code does treat the empty view: it prints the notice and
    no option row. *)
Lemma render_empty_view lower options st :
  user.view_of lower options st = [] ->
  map user.text (skipn 2 (user.render lower options st)) =
  [Py.lit "No results found."].
Proof.
  unfold user.view_of, user.render. intros ->. reflexivity.
Qed.

Lemma draw_rows_none_highlighted cursor (view : list user.group) :
  forall idx,
    idx + Z.of_nat (length view) <= cursor ->
    Forall (fun d => user.reverse d = false)
      (user.draw_rows idx cursor view).
Proof.
  induction view as [|opt rest IH]; intros idx H; simpl in *.
  - constructor.
  - constructor.
    + simpl. apply Z.eqb_neq. lia.
    + apply IH. lia.
Qed.

(** Enter with the cursor inside the view returns the identifier of the
    option under it; with the cursor past the end it raises. *)
Lemma enter_in_view_returns lower options st key :
  user.is_enter key ->
  0 <= user.current_row st
    < Z.of_nat (length (user.view_of lower options st)) ->
  exists opt,
    nth_error (user.view_of lower options st)
      (Z.to_nat (user.current_row st)) = Some opt /\
    user.on_key lower options st key = user.Return (Some (user.id opt)).
Proof.
  intros He Hrow. rewrite on_key_enter by exact He.
  destruct (getitem_in_range _ _ Hrow) as [opt E].
  exists opt. rewrite E. split; [| reflexivity].
  now rewrite <- getitem_nat.
Qed.

Lemma enter_past_view_raises lower options st key :
  user.is_enter key ->
  0 <= user.current_row st ->
  Z.of_nat (length (user.view_of lower options st)) <= user.current_row st ->
  user.on_key lower options st key = user.Raise Py.IndexError.
Proof.
  intros He H0 Hrow. rewrite on_key_enter by exact He.
  now rewrite getitem_past_end.
Qed.

(** C2 (not met by the code). With an empty view, an Enter-class key
    indexes the empty list: the turn does not go on to the next key, it
    raises [IndexError], which ends the loop whatever keys follow.  No
    selection is produced, but the selector does not stay active. *)
Theorem enter_on_empty_view_raises :
  forall (lower : Py.str -> Py.str) (options : list user.group)
         (st : user.state) (key : Z),
    user.view_of lower options st = [] ->
    user.is_enter key ->
    user.on_key lower options st key = user.Raise Py.IndexError /\
    (forall st', user.on_key lower options st key <> user.Continue st') /\
    (forall rest,
        user.run lower options st (key :: rest) = user.Raised Py.IndexError).
Proof.
  intros lower options st key Hview He.
  assert (H : user.on_key lower options st key = user.Raise Py.IndexError).
  { rewrite on_key_enter by exact He. now rewrite Hview, getitem_nil. }
  repeat apply conj.
  - exact H.
  - intros st'. rewrite H. discriminate.
  - intros rest. simpl. now rewrite H.
Qed.

Lemma enter_on_empty_view_raises_witness :
  user.display_filterable_list Py.ascii_lower scenario.teams [122; 10] =
  user.Raised Py.IndexError.
Proof.
  change (user.run Py.ascii_lower scenario.teams
            {| user.current_row := 0; user.search_text := Py.lit "z" |} [10]
          = user.Raised Py.IndexError).
  apply (enter_on_empty_view_raises Py.ascii_lower scenario.teams
           {| user.current_row := 0; user.search_text := Py.lit "z" |} 10).
  - reflexivity.
  - right. left. reflexivity.
Defined.

(** C3 (not met by the code). The keys on which a turn does not go on
    to the next one are exactly: an Enter-class key (whatever the view),
    Escape, an up or down key while the view is empty, and a key whose code
    [chr] rejects.  In particular up or down on an empty view ends the loop
    with [ZeroDivisionError], without Enter or Escape being pressed. *)
Theorem loop_exit_keys :
  forall (lower : Py.str -> Py.str) (options : list user.group)
         (st : user.state) (key : Z),
    ((forall st', user.on_key lower options st key <> user.Continue st') <->
     user.is_enter key \/ user.is_escape key \/
     (user.is_arrow key /\ user.view_of lower options st = []) \/
     (user.is_other key /\ Py.chr key = None)) /\
    (user.is_arrow key ->
     user.view_of lower options st = [] ->
     forall rest,
       user.run lower options st (key :: rest) =
       user.Raised Py.ZeroDivisionError).
Proof.
  intros lower options st key.
  assert (Harrow : user.is_arrow key ->
                   user.view_of lower options st = [] ->
                   user.on_key lower options st key =
                   user.Raise Py.ZeroDivisionError).
  { intros Hk Hview. apply view_empty_length in Hview.
    destruct Hk as [-> | ->];
      [rewrite on_key_up | rewrite on_key_down]; now rewrite Hview. }
  split; [split |].
  - intros H.
    destruct (key_class key) as [Ha | [Hb | [He | [Hesc | Ho]]]].
    + right; right; left. split; [exact Ha |].
      destruct (user.view_of lower options st) as [|opt view] eqn:Hview;
        [reflexivity | exfalso].
      assert (Hlen : 0 < Z.of_nat (length (user.view_of lower options st)))
        by (rewrite Hview; simpl; lia).
      destruct Ha as [-> | ->].
      * eapply H. rewrite on_key_up, mod_positive by exact Hlen. reflexivity.
      * eapply H. rewrite on_key_down, mod_positive by exact Hlen. reflexivity.
    + exfalso. eapply H. apply on_key_backspace. exact Hb.
    + now left.
    + now (right; left).
    + right; right; right. split; [exact Ho |].
      destruct (Py.chr key) eqn:E; [exfalso | reflexivity].
      eapply H. rewrite on_key_other, E by exact Ho. reflexivity.
  - intros [He | [-> | [[Ha Hview] | [Ho Hchr]]]] st'.
    + rewrite on_key_enter by exact He. destruct (Py.getitem _ _); discriminate.
    + rewrite on_key_escape. discriminate.
    + rewrite (Harrow Ha Hview). discriminate.
    + rewrite on_key_other, Hchr by exact Ho. discriminate.
  - intros Ha Hview rest. simpl. now rewrite (Harrow Ha Hview).
Qed.

Lemma loop_exit_keys_witness :
  user.display_filterable_list Py.ascii_lower scenario.teams
    [122; curses.KEY_DOWN] =
  user.Raised Py.ZeroDivisionError.
Proof.
  change (user.run Py.ascii_lower scenario.teams
            {| user.current_row := 0; user.search_text := Py.lit "z" |}
            [curses.KEY_DOWN]
          = user.Raised Py.ZeroDivisionError).
  apply (proj2 (loop_exit_keys Py.ascii_lower scenario.teams
                  {| user.current_row := 0; user.search_text := Py.lit "z" |}
                  curses.KEY_DOWN)).
  - right. reflexivity.
  - reflexivity.
Defined.

(** C4 (not met by the code). A key that edits the search text never
    touches the cursor, so the cursor is not brought back inside a view the
    edit has shortened.  With the three teams, "down" twice and then "T"
    leave the cursor at 2 over a view of two options; no row is highlighted
    in that state, and Enter then raises [IndexError]. *)
Theorem cursor_not_reclamped :
  forall (lower : Py.str -> Py.str),
    (forall options st key st',
        ~ user.is_arrow key ->
        user.on_key lower options st key = user.Continue st' ->
        user.current_row st' = user.current_row st) /\
    (Py.lowers_ascii lower ->
     user.display_filterable_list lower scenario.teams
       [curses.KEY_DOWN; curses.KEY_DOWN; 84] =
       user.Active {| user.current_row := 2; user.search_text := Py.lit "T" |}
     /\
     map user.name
       (user.view_of lower scenario.teams
          {| user.current_row := 2; user.search_text := Py.lit "T" |}) =
       [Py.lit "Team A"; Py.lit "Team B"] /\
     Forall (fun d => user.reverse d = false)
       (user.render lower scenario.teams
          {| user.current_row := 2; user.search_text := Py.lit "T" |}) /\
     user.display_filterable_list lower scenario.teams
       [curses.KEY_DOWN; curses.KEY_DOWN; 84; 10] =
       user.Raised Py.IndexError).
Proof.
  intros lower. split.
  - intros options st key st' Hk H.
    pose proof (on_key_outcomes lower options st key) as T.
    rewrite H in T. simpl in T.
    destruct T as [[Ha _] | [[_ E] | [_ [_ E]]]];
      [contradiction | exact E | exact E].
  - intros Hlow.
    unfold user.display_filterable_list, user.view_of, user.render.
    rewrite !(run_ascii lower) by (try exact Hlow; ascii_session).
    rewrite !(filtered_options_ascii lower)
      by (try exact Hlow; ascii_session).
    repeat split. repeat constructor.
Qed.

Lemma cursor_not_reclamped_witness :
  user.display_filterable_list Py.ascii_lower scenario.teams
    [curses.KEY_DOWN; curses.KEY_DOWN; 84; 10] =
  user.Raised Py.IndexError.
Proof.
  apply (proj2 (cursor_not_reclamped Py.ascii_lower)).
  intros s _. reflexivity.
Defined.

(** ** The role picker *)

Section RolePicker.

Variable strip : Py.str -> Py.str.
Variable int : Py.str -> option Z.
Variable roles : list group.role.

Lemma parse_indices_cases (tokens : list Py.str) :
  (exists numbers,
      Forall2 (group.parses_as strip int) tokens numbers /\
      group.parse_indices strip int tokens
      = group.Ok (map (fun i => i - 1) numbers)) \/
  (exists token,
      Exists (fun t => int (strip t) = None) tokens /\
      group.parse_indices strip int tokens
      = group.Except (group.InvalidLiteral token)).
Proof.
  induction tokens as [|index rest IH]; simpl.
  - left. exists []. split; [constructor | reflexivity].
  - destruct (int (strip index)) as [n |] eqn:E.
    + destruct IH as [(numbers & Hall & ->) | (token & Hex & ->)].
      * left. exists (n :: numbers). split; [| reflexivity].
        constructor; [exact E | exact Hall].
      * right. exists token. split; [| reflexivity].
        now apply Exists_cons_tl.
    + right. exists (strip index). split; [| reflexivity].
      now apply Exists_cons_hd.
Qed.

Lemma parses_as_functional (tokens : list Py.str) (a b : list Z) :
  Forall2 (group.parses_as strip int) tokens a ->
  Forall2 (group.parses_as strip int) tokens b -> a = b.
Proof.
  intros Ha. revert b.
  induction Ha as [| token i rest a Hi _ IH]; intros b Hb; inversion Hb; subst.
  - reflexivity.
  - unfold group.parses_as in *. f_equal; [congruence | now apply IH].
Qed.

Lemma append_ids_in_range (numbers : list Z) :
  Forall (group.in_range roles) numbers ->
  forall acc,
  exists ids,
    group.append_ids roles (map (fun i => i - 1) numbers) acc
    = group.Ok (acc ++ ids) /\
    Forall2 (group.id_at roles) numbers ids.
Proof.
  unfold group.in_range.
  induction 1 as [| i rest Hi _ IH]; intros acc; simpl.
  - exists []. split; [now rewrite app_nil_r | constructor].
  - destruct (Z.ltb_spec (i - 1) 0); [lia |].
    rewrite Z.geb_leb.
    destruct (Z.leb_spec (Z.of_nat (length roles)) (i - 1)); [lia |].
    simpl. rewrite getitem_nat by lia.
    destruct (nth_error roles (Z.to_nat (i - 1))) as [role |] eqn:E.
    + destruct (IH (acc ++ [group.id role])) as (ids & -> & Hids).
      exists (group.id role :: ids). split.
      * now rewrite <- app_assoc.
      * constructor; [now exists role | exact Hids].
    + apply nth_error_None in E. lia.
Qed.

Lemma append_ids_out_of_range (numbers : list Z) :
  Exists (fun i => ~ group.in_range roles i) numbers ->
  forall acc,
    group.append_ids roles (map (fun i => i - 1) numbers) acc
    = group.Except group.InvalidRoleSelection.
Proof.
  unfold group.in_range.
  induction numbers as [| i rest IH]; intros Hex acc;
    [inversion Hex |].
  simpl. rewrite Z.geb_leb.
  destruct (Z.ltb_spec (i - 1) 0); [reflexivity |].
  destruct (Z.leb_spec (Z.of_nat (length roles)) (i - 1)); [reflexivity |].
  simpl. rewrite getitem_nat by lia.
  destruct (nth_error roles (Z.to_nat (i - 1))) as [role |] eqn:E.
  - apply IH. inversion Hex; subst; [lia | assumption].
  - apply nth_error_None in E. lia.
Qed.

End RolePicker.

(** C9. The operator's line is cut at the commas.  If every token
    parses as an integer between 1 and the number of roles, the picker
    prints the menu and returns the identifiers [roles[i-1]["id"]], one per
    token, in the order of the tokens (a number entered twice is returned
    twice).  If some token does not parse, or parses to a number outside
    that range, the picker prints the menu, then an input error, and exits
    with status 1: nothing is returned.  This holds for every list of
    roles, the non-empty ones among them. *)
Theorem select_roles_by_tokens :
  forall (strip : Py.str -> Py.str) (int : Py.str -> option Z)
         (roles : list group.role) (line : Py.str),
    (forall numbers,
        Forall2 (fun token i => group.parses_as strip int token i /\
                                group.in_range roles i)
          (Py.split 44 line) numbers ->
        exists ids,
          group.select_roles strip int roles line =
          (group.PrintHeader :: group.print_roles 0 roles ++ [group.Prompt],
           group.Returned ids) /\
          Forall2 (group.id_at roles) numbers ids) /\
    (Exists (fun token =>
               int (strip token) = None \/
               exists i, group.parses_as strip int token i /\
                         ~ group.in_range roles i)
       (Py.split 44 line) ->
     exists ve,
       group.select_roles strip int roles line =
       ((group.PrintHeader :: group.print_roles 0 roles ++ [group.Prompt])
          ++ [group.PrintInputError ve],
        group.Exited 1)).
Proof.
  intros strip int roles line. unfold group.select_roles.
  generalize (Py.split 44 line) as tokens. intros tokens. split.
  - intros numbers Hall.
    assert (Hparse : Forall2 (group.parses_as strip int) tokens numbers).
    { eapply Forall2_impl; [| exact Hall]. now intros a b [Hp _]. }
    assert (Hrange : Forall (group.in_range roles) numbers).
    { clear Hparse. induction Hall as [| t i ts ns [_ Hi] _ IH];
        constructor; assumption. }
    destruct (parse_indices_cases strip int tokens)
      as [(numbers' & Hparse' & ->) | (token & Hex & _)].
    + rewrite (parses_as_functional strip int tokens numbers' numbers
                 Hparse' Hparse).
      destruct (append_ids_in_range roles numbers Hrange [])
        as (ids & E & Hids).
      simpl. rewrite E. exists ids. split; [reflexivity | exact Hids].
    + exfalso. clear Hall Hrange. unfold group.parses_as in Hparse.
      induction Hparse as [| t i ts ns Hi _ IH];
        inversion Hex; subst; [congruence | auto].
  - intros Hbad.
    destruct (parse_indices_cases strip int tokens)
      as [(numbers & Hparse & ->) | (token & _ & ->)].
    + simpl.
      rewrite (append_ids_out_of_range roles numbers).
      * now exists group.InvalidRoleSelection.
      * unfold group.parses_as in *.
        induction Hparse as [| t i ts ns Hi _ IH]; inversion Hbad; subst.
        -- apply Exists_cons_hd.
           destruct H0 as [H0 | (j & Hj & Hout)]; [congruence |].
           replace i with j by congruence. exact Hout.
        -- apply Exists_cons_tl. now apply IH.
    + simpl. now exists (group.InvalidLiteral token).
Qed.

Lemma select_roles_by_tokens_witness :
  (exists ids,
      group.select_roles Py.ascii_strip Py.ascii_int scenario.roles
        (Py.lit "2, 1 ,2") =
      (group.PrintHeader :: group.print_roles 0 scenario.roles
         ++ [group.Prompt],
       group.Returned ids) /\
      Forall2 (group.id_at scenario.roles) [2; 1; 2] ids) /\
  (exists ve,
      group.select_roles Py.ascii_strip Py.ascii_int scenario.roles
        (Py.lit "1,3") =
      ((group.PrintHeader :: group.print_roles 0 scenario.roles
          ++ [group.Prompt]) ++ [group.PrintInputError ve],
       group.Exited 1)).
Proof.
  split.
  - apply (proj1 (select_roles_by_tokens Py.ascii_strip Py.ascii_int
                    scenario.roles (Py.lit "2, 1 ,2"))).
    repeat constructor; unfold group.in_range; simpl; lia.
  - apply (proj2 (select_roles_by_tokens Py.ascii_strip Py.ascii_int
                    scenario.roles (Py.lit "1,3"))).
    apply Exists_cons_tl, Exists_cons_hd. right. exists 3.
    split; [reflexivity | unfold group.in_range; simpl; lia].
Defined.

(** * Further properties of the selector *)

Lemma in_filtered_options lower (options : list user.group) (s : Py.str)
  (opt : user.group) :
  In opt (user.filtered_options lower options s) <->
  In opt options /\ user.matches lower s opt = true.
Proof.
  induction options as [|o rest IH]; simpl.
  - tauto.
  - destruct (user.matches lower s o) eqn:E; simpl; rewrite IH.
    + split.
      * intros [-> | [H1 H2]]; auto.
      * intros [[-> | H1] H2]; auto.
    + split.
      * intros [H1 H2]; auto.
      * intros [[-> | H1] H2]; [congruence | auto].
Qed.

Lemma getitem_In {A : Type} (l : list A) (i : Z) (x : A) :
  Py.getitem l i = Some x -> In x l.
Proof.
  unfold Py.getitem.
  destruct ((0 <=? _) && (_ <? _)); [| discriminate].
  apply nth_error_In.
Qed.

Lemma run_returned lower options keys : forall st i,
  user.run lower options st keys = user.Returned (Some i) ->
  exists pre enter rest st' opt,
    keys = pre ++ enter :: rest /\
    user.is_enter enter /\
    user.run lower options st pre = user.Active st' /\
    Py.getitem (user.view_of lower options st') (user.current_row st')
    = Some opt /\
    user.id opt = i.
Proof.
  induction keys as [|key keys IH]; intros st i H; simpl in H;
    [discriminate |].
  pose proof (on_key_outcomes lower options st key) as T.
  destruct (user.on_key lower options st key) as [st1 | r | e] eqn:E.
  - destruct (IH st1 i H) as (pre & enter & rest & st' & opt & -> & He & Hr & Hg).
    exists (key :: pre), enter, rest, st', opt.
    repeat split; try assumption; try tauto.
    simpl. now rewrite E.
  - injection H as ->. simpl in T. destruct T as (He & opt & Hg & Hid).
    exists [], key, keys, st, opt. repeat split; assumption.
  - discriminate.
Qed.

(** X1. Whatever the keys, an identifier the selector returns is the
    identifier of one of the options it was given, and the name of that
    option contains, case-insensitively, the search text as it stood when
    Enter was pressed. *)
Theorem returned_id_is_a_matching_option :
  forall (lower : Py.str -> Py.str) (options : list user.group)
         (keys : list Z) (i : Py.str),
    user.display_filterable_list lower options keys
    = user.Returned (Some i) ->
    exists pre enter rest st opt,
      keys = pre ++ enter :: rest /\
      user.is_enter enter /\
      user.display_filterable_list lower options pre = user.Active st /\
      In opt options /\
      user.ci_substring lower (user.search_text st) (user.name opt) /\
      user.id opt = i.
Proof.
  intros lower options keys i H.
  destruct (run_returned lower options keys user.initial i H)
    as (pre & enter & rest & st & opt & Hk & He & Hr & Hg & Hid).
  exists pre, enter, rest, st, opt.
  apply getitem_In, in_filtered_options in Hg. destruct Hg as [Hin Hm].
  repeat split; try assumption.
  now apply matches_ci_substring.
Qed.

Lemma returned_id_is_a_matching_option_witness :
  exists pre enter rest st opt,
    [116; curses.KEY_DOWN; 10] = pre ++ enter :: rest /\
    user.is_enter enter /\
    user.display_filterable_list Py.ascii_lower scenario.teams pre
    = user.Active st /\
    In opt scenario.teams /\
    user.ci_substring Py.ascii_lower (user.search_text st) (user.name opt) /\
    user.id opt = Py.lit "2".
Proof.
  apply (returned_id_is_a_matching_option Py.ascii_lower scenario.teams
           [116; curses.KEY_DOWN; 10] (Py.lit "2")).
  reflexivity.
Defined.

(** ** Keys that only edit the text *)








(** X3. Every key that is not an arrow, a backspace, Enter or Escape
    goes through [chr]: a code in [0, 0x10FFFF] is appended to the search
    text whether or not it is printable (a control code, or a function key
    such as [KEY_LEFT] = 260), and any other code (the -1 of a failed
    [getch], for one) raises [ValueError] and ends the loop. *)
Theorem other_keys_go_through_chr :
  forall (lower : Py.str -> Py.str) (options : list user.group)
         (st : user.state) (key : Z),
    user.is_other key ->
    (0 <= key <= 1114111 ->
     user.on_key lower options st key =
     user.Continue {| user.current_row := user.current_row st;
                      user.search_text := user.search_text st ++ [key] |}) /\
    (key < 0 \/ 1114111 < key ->
     forall rest,
       user.run lower options st (key :: rest) = user.Raised Py.ValueError).
Proof.
  intros lower options st key Ho. split.
  - intros Hr. now rewrite on_key_other, chr_code_point.
  - intros Hr rest. simpl. rewrite on_key_other by exact Ho.
    unfold Py.chr.
    destruct (Z.leb_spec 0 key); destruct (Z.leb_spec key 1114111);
      try reflexivity; lia.
Qed.

Lemma other_keys_go_through_chr_witness :
  user.on_key Py.ascii_lower scenario.teams user.initial 260 =
    user.Continue {| user.current_row := 0; user.search_text := [260] |} /\
  user.run Py.ascii_lower scenario.teams user.initial [-1; 27] =
    user.Raised Py.ValueError.
Proof.
  split.
  - apply (proj1 (other_keys_go_through_chr Py.ascii_lower scenario.teams
                    user.initial 260 ltac:(key_consts; lia))).
    lia.
  - apply (proj2 (other_keys_go_through_chr Py.ascii_lower scenario.teams
                    user.initial (-1) ltac:(key_consts; lia))).
    lia.
Defined.





(** X5. Enter reads the view at the cursor: with the cursor inside the
    view it returns the identifier of the option at that position, and with
    the cursor at or past the end of the view (an empty view included) it
    raises [IndexError]. *)
Theorem enter_reads_the_cursor :
  forall (lower : Py.str -> Py.str) (options : list user.group)
         (st : user.state) (key : Z),
    user.is_enter key ->
    0 <= user.current_row st ->
    (user.current_row st
       < Z.of_nat (length (user.view_of lower options st)) ->
     exists opt,
       nth_error (user.view_of lower options st)
         (Z.to_nat (user.current_row st)) = Some opt /\
       user.on_key lower options st key = user.Return (Some (user.id opt)))
    /\
    (Z.of_nat (length (user.view_of lower options st))
       <= user.current_row st ->
     user.on_key lower options st key = user.Raise Py.IndexError).
Proof.
  intros lower options st key He H0. split; intros H.
  - apply enter_in_view_returns; [exact He | lia].
  - now apply enter_past_view_raises.
Qed.

Lemma enter_reads_the_cursor_witness :
  (exists opt,
      nth_error
        (user.view_of Py.ascii_lower scenario.teams
           {| user.current_row := 1; user.search_text := Py.lit "t" |})
        (Z.to_nat 1) = Some opt /\
      user.on_key Py.ascii_lower scenario.teams
        {| user.current_row := 1; user.search_text := Py.lit "t" |} 343
      = user.Return (Some (user.id opt))) /\
  user.on_key Py.ascii_lower scenario.teams
    {| user.current_row := 2; user.search_text := Py.lit "t" |} 343
  = user.Raise Py.IndexError.
Proof.
  split.
  - apply (proj1 (enter_reads_the_cursor Py.ascii_lower scenario.teams
                    {| user.current_row := 1;
                       user.search_text := Py.lit "t" |} 343
                    (or_introl eq_refl) ltac:(simpl; lia))).
    vm_compute. reflexivity.
  - apply (proj2 (enter_reads_the_cursor Py.ascii_lower scenario.teams
                    {| user.current_row := 2;
                       user.search_text := Py.lit "t" |} 343
                    (or_introl eq_refl) ltac:(simpl; lia))).
    vm_compute. discriminate.
Defined.

(** ** Narrowing *)

Lemma filtered_options_length lower (options : list user.group) s :
  (length (user.filtered_options lower options s) <= length options)%nat.
Proof.
  induction options as [|opt rest IH]; simpl; [lia |].
  destruct (user.matches lower s opt); simpl; lia.
Qed.

Lemma filtered_options_again lower (options : list user.group) s1 s2 :
  (forall opt, In opt options ->
               user.matches lower s2 opt = true ->
               user.matches lower s1 opt = true) ->
  user.filtered_options lower (user.filtered_options lower options s1) s2 =
  user.filtered_options lower options s2.
Proof.
  induction options as [|opt rest IH]; intros H; simpl; [reflexivity |].
  assert (IH' := IH (fun o Ho => H o (or_intror Ho))).
  destruct (user.matches lower s1 opt) eqn:E1; simpl.
  - now rewrite IH'.
  - destruct (user.matches lower s2 opt) eqn:E2; [| exact IH'].
    rewrite (H opt (or_introl eq_refl) E2) in E1. discriminate.
Qed.

Lemma ascii_matches_shorter lower s t (opt : user.group) :
  Py.lowers_ascii lower ->
  Forall Py.is_ascii (user.name opt) ->
  Forall Py.is_ascii s -> Forall Py.is_ascii t ->
  user.matches lower (s ++ t) opt = true ->
  user.matches lower s opt = true.
Proof.
  intros Hlow Hn Hs Ht. unfold user.matches.
  rewrite (Hlow _ Hn), (Hlow _ Hs),
    (Hlow (s ++ t) (proj2 (Forall_app _ _ _) (conj Hs Ht))).
  unfold Py.ascii_lower. rewrite map_app, !contains_infix.
  intros (pre & post & E).
  exists pre, (map Py.lower_ascii_char t ++ post).
  now rewrite E, <- !app_assoc.
Qed.

(** X6. On ASCII names and ASCII text, typing more never brings an
    option back: the view for a longer search text is the view for the
    shorter one filtered again, so each of its options was already shown
    and it is no longer than before. *)
Theorem typing_more_narrows_the_view :
  forall (lower : Py.str -> Py.str) (options : list user.group)
         (s t : Py.str),
    Py.lowers_ascii lower ->
    user.ascii_names options ->
    Forall Py.is_ascii s ->
    Forall Py.is_ascii t ->
    user.filtered_options lower options (s ++ t) =
    user.filtered_options lower (user.filtered_options lower options s)
      (s ++ t) /\
    (forall opt,
        In opt (user.filtered_options lower options (s ++ t)) ->
        In opt (user.filtered_options lower options s)) /\
    (length (user.filtered_options lower options (s ++ t))
     <= length (user.filtered_options lower options s))%nat.
Proof.
  intros lower options s t Hlow Hnames Hs Ht.
  assert (E : user.filtered_options lower
                (user.filtered_options lower options s) (s ++ t) =
              user.filtered_options lower options (s ++ t)).
  { apply filtered_options_again. intros opt Hin.
    apply (ascii_matches_shorter lower s t opt Hlow); try assumption.
    unfold user.ascii_names in Hnames. rewrite Forall_forall in Hnames.
    now apply Hnames. }
  repeat split.
  - now rewrite E.
  - intros opt Hin. rewrite <- E in Hin.
    apply in_filtered_options in Hin. tauto.
  - rewrite <- E. apply filtered_options_length.
Qed.

Lemma typing_more_narrows_the_view_witness :
  (length (user.filtered_options Py.ascii_lower scenario.teams
             (Py.lit "t" ++ Py.lit "eam b"))
   <= length (user.filtered_options Py.ascii_lower scenario.teams
                (Py.lit "t")))%nat.
Proof.
  apply (typing_more_narrows_the_view Py.ascii_lower scenario.teams
           (Py.lit "t") (Py.lit "eam b")).
  - intros s _. reflexivity.
  - ascii_session.
  - ascii_session.
  - ascii_session.
Defined.

(** ** The highlighted row *)

Lemma draw_rows_after_cursor cursor (view : list user.group) :
  forall idx,
    cursor < idx ->
    typing.highlighted (user.draw_rows idx cursor view) = [].
Proof.
  unfold typing.highlighted.
  induction view as [|opt rest IH]; intros idx H; simpl; [reflexivity |].
  destruct (Z.eqb_spec idx cursor); [lia |]. apply IH. lia.
Qed.

Lemma draw_rows_before_cursor cursor (view : list user.group) :
  forall idx,
    idx + Z.of_nat (length view) <= cursor ->
    typing.highlighted (user.draw_rows idx cursor view) = [].
Proof.
  unfold typing.highlighted.
  induction view as [|opt rest IH]; intros idx H; simpl in *; [reflexivity |].
  destruct (Z.eqb_spec idx cursor); [lia |]. apply IH. lia.
Qed.

Lemma draw_rows_at_cursor cursor (view : list user.group) :
  forall idx opt,
    idx <= cursor ->
    nth_error view (Z.to_nat (cursor - idx)) = Some opt ->
    typing.highlighted (user.draw_rows idx cursor view) =
    [ {| user.row := 3 + cursor; user.text := user.name opt;
         user.reverse := true |} ].
Proof.
  induction view as [|o rest IH]; intros idx opt Hle Hnth.
  - destruct (Z.to_nat (cursor - idx)); discriminate.
  - simpl. unfold typing.highlighted. simpl.
    destruct (Z.eqb_spec idx cursor) as [-> | Hne].
    + rewrite Z.sub_diag in Hnth. simpl in Hnth. injection Hnth as ->.
      f_equal. apply draw_rows_after_cursor. lia.
    + replace (Z.to_nat (cursor - idx))
        with (S (Z.to_nat (cursor - (idx + 1)))) in Hnth by lia.
      simpl in Hnth. apply IH; [lia | exact Hnth].
Qed.

(** X7. What is highlighted is what Enter returns: when the cursor is
    inside the view, the frame has exactly one row in reverse video, it is
    row [3 + cursor], it shows the name of the option at the cursor, and
    Enter returns the identifier of that same option; when the cursor is at
    or past the end of the view, no row of the frame is highlighted. *)
Theorem highlighted_row_is_the_selection :
  forall (lower : Py.str -> Py.str) (options : list user.group)
         (st : user.state),
    0 <= user.current_row st ->
    (forall opt,
        nth_error (user.view_of lower options st)
          (Z.to_nat (user.current_row st)) = Some opt ->
        typing.highlighted (user.render lower options st) =
        [ {| user.row := 3 + user.current_row st;
             user.text := user.name opt; user.reverse := true |} ] /\
        forall enter,
          user.is_enter enter ->
          user.on_key lower options st enter =
          user.Return (Some (user.id opt))) /\
    (Z.of_nat (length (user.view_of lower options st))
       <= user.current_row st ->
     typing.highlighted (user.render lower options st) = []).
Proof.
  intros lower options st H0. split.
  - intros opt Hnth. split.
    + unfold user.render. fold (user.view_of lower options st).
      destruct (user.view_of lower options st) as [|o view] eqn:Hview.
      * destruct (Z.to_nat (user.current_row st)); discriminate.
      * unfold typing.highlighted. cbn [filter user.reverse].
        apply draw_rows_at_cursor; [exact H0 |].
        now rewrite Z.sub_0_r.
    + intros enter He. rewrite on_key_enter by exact He.
      rewrite getitem_nat; [now rewrite Hnth |].
      assert (Hlt : (Z.to_nat (user.current_row st)
                     < length (user.view_of lower options st))%nat).
      { apply nth_error_Some. rewrite Hnth. discriminate. }
      lia.
  - intros Hlen. unfold user.render.
    fold (user.view_of lower options st).
    destruct (user.view_of lower options st) as [|o view] eqn:Hview.
    + reflexivity.
    + unfold typing.highlighted. cbn [filter user.reverse].
      apply draw_rows_before_cursor. lia.
Qed.

Lemma highlighted_row_is_the_selection_witness :
  typing.highlighted
    (user.render Py.ascii_lower scenario.teams
       {| user.current_row := 1; user.search_text := Py.lit "a" |}) =
  [ {| user.row := 3 + 1; user.text := Py.lit "Team B";
       user.reverse := true |} ] /\
  typing.highlighted
    (user.render Py.ascii_lower scenario.teams
       {| user.current_row := 2; user.search_text := Py.lit "t" |}) = [].
Proof.
  split.
  - apply (proj1 (highlighted_row_is_the_selection Py.ascii_lower
                    scenario.teams
                    {| user.current_row := 1;
                       user.search_text := Py.lit "a" |}
                    ltac:(simpl; lia))
             {| user.name := Py.lit "Team B"; user.id := Py.lit "2" |}).
    reflexivity.
  - apply (proj2 (highlighted_row_is_the_selection Py.ascii_lower
                    scenario.teams
                    {| user.current_row := 2;
                       user.search_text := Py.lit "t" |}
                    ltac:(simpl; lia))).
    vm_compute. discriminate.
Defined.

(** * Further properties of the role picker *)

Section RolePickerCases.

Variable strip : Py.str -> Py.str.
Variable int : Py.str -> option Z.
Variable roles : list group.role.

Lemma in_range_all_or_one (numbers : list Z) :
  Forall (group.in_range roles) numbers \/
  Exists (fun i => ~ group.in_range roles i) numbers.
Proof.
  induction numbers as [|i rest IH].
  - left. constructor.
  - assert (D : group.in_range roles i \/ ~ group.in_range roles i)
      by (unfold group.in_range; lia).
    destruct D as [Hi | Hi]; [| right; now apply Exists_cons_hd].
    destruct IH as [IH | IH].
    + left. now constructor.
    + right. now apply Exists_cons_tl.
Qed.

(** The two ways the call can end, and nothing else. *)
Lemma select_roles_cases (line : Py.str) :
  let shown :=
    group.PrintHeader :: group.print_roles 0 roles ++ [group.Prompt] in
  (exists numbers ids,
      Forall2 (group.parses_as strip int) (Py.split 44 line) numbers /\
      Forall (group.in_range roles) numbers /\
      Forall2 (group.id_at roles) numbers ids /\
      group.select_roles strip int roles line = (shown, group.Returned ids))
  \/
  (exists ve,
      group.select_roles strip int roles line =
      (shown ++ [group.PrintInputError ve], group.Exited 1)).
Proof.
  intros shown. unfold group.select_roles. fold shown.
  destruct (parse_indices_cases strip int (Py.split 44 line))
    as [(numbers & Hparse & ->) | (token & _ & ->)]; simpl.
  - destruct (in_range_all_or_one numbers) as [Hall | Hex].
    + destruct (append_ids_in_range roles numbers Hall []) as (ids & -> & Hids).
      left. now exists numbers, ids.
    + rewrite (append_ids_out_of_range roles numbers Hex).
      right. now exists group.InvalidRoleSelection.
  - right. now exists (group.InvalidLiteral token).
Qed.

Lemma id_at_In (i : Z) (rid : Py.str) :
  group.id_at roles i rid -> exists r, In r roles /\ group.id r = rid.
Proof.
  intros (r & Hnth & Hid). exists r. split; [| exact Hid].
  eapply nth_error_In. exact Hnth.
Qed.

End RolePickerCases.

Lemma split_length (sep : Z) (s : Py.str) :
  length (Py.split sep s) = S (count_occ Z.eq_dec s sep).
Proof.
  induction s as [|c s IH]; simpl; [reflexivity |].
  destruct (Z.eqb_spec c sep) as [-> | Hne].
  - destruct (Z.eq_dec sep sep); [| contradiction]. simpl. now rewrite IH.
  - destruct (Z.eq_dec c sep); [contradiction |].
    destruct (Py.split sep s); simpl in *; [discriminate | exact IH].
Qed.

(** X8. The picker returns only complete, valid selections: if it
    returns at all, then it printed the menu and no error, every token of
    the line parsed to a number between 1 and the number of roles, the
    identifiers returned are those of the roles so numbered, token by
    token, and each of them is the identifier of a role of the list. *)
Theorem select_roles_returns_only_valid :
  forall (strip : Py.str -> Py.str) (int : Py.str -> option Z)
         (roles : list group.role) (line : Py.str)
         (out : list group.output) (ids : list Py.str),
    group.select_roles strip int roles line = (out, group.Returned ids) ->
    out = group.PrintHeader :: group.print_roles 0 roles ++ [group.Prompt] /\
    (exists numbers,
        Forall2 (fun token i => group.parses_as strip int token i /\
                                group.in_range roles i)
          (Py.split 44 line) numbers /\
        Forall2 (group.id_at roles) numbers ids) /\
    (forall rid, In rid ids -> exists r, In r roles /\ group.id r = rid).
Proof.
  intros strip int roles line out ids H.
  destruct (select_roles_cases strip int roles line)
    as [(numbers & ids' & Hparse & Hrange & Hids & E) | (ve & E)];
    rewrite E in H; [| discriminate].
  injection H as <- <-. repeat split.
  - exists numbers. split; [| exact Hids].
    clear Hids E. induction Hparse as [| t i ts ns Hi _ IH].
    + constructor.
    + inversion Hrange; subst. constructor; [now split | now apply IH].
  - intros rid Hin. clear E Hparse Hrange.
    induction Hids as [| i r ns rs Hir _ IH]; [contradiction |].
    destruct Hin as [<- | Hin]; [exact (id_at_In roles i r Hir) | now apply IH].
Qed.

Lemma select_roles_returns_only_valid_witness :
  exists numbers,
    Forall2 (fun token i =>
               group.parses_as Py.ascii_strip Py.ascii_int token i /\
               group.in_range scenario.roles i)
      (Py.split 44 (Py.lit " 2,1")) numbers /\
    Forall2 (group.id_at scenario.roles) numbers
      [Py.lit "r-viewer"; Py.lit "r-admin"].
Proof.
  apply (select_roles_returns_only_valid Py.ascii_strip Py.ascii_int
           scenario.roles (Py.lit " 2,1")
           (group.PrintHeader :: group.print_roles 0 scenario.roles
              ++ [group.Prompt])
           [Py.lit "r-viewer"; Py.lit "r-admin"]).
  reflexivity.
Defined.

(** X9. The picker never returns an empty selection: what it returns
    has one identifier per token of the line, that is one more than the
    line has commas. *)
Theorem select_roles_never_returns_empty :
  forall (strip : Py.str -> Py.str) (int : Py.str -> option Z)
         (roles : list group.role) (line : Py.str)
         (out : list group.output) (ids : list Py.str),
    group.select_roles strip int roles line = (out, group.Returned ids) ->
    ids <> [] /\
    length ids = S (count_occ Z.eq_dec line 44).
Proof.
  intros strip int roles line out ids H.
  destruct (select_roles_cases strip int roles line)
    as [(numbers & ids' & Hparse & _ & Hids & E) | (ve & E)];
    rewrite E in H; [| discriminate].
  injection H as _ <-.
  assert (L : length ids' = S (count_occ Z.eq_dec line 44)).
  { rewrite <- (Forall2_length Hids), <- (Forall2_length Hparse).
    apply split_length. }
  split; [| exact L].
  intros ->. discriminate.
Qed.

Lemma select_roles_never_returns_empty_witness :
  [Py.lit "r-admin"; Py.lit "r-admin"] <> [] /\
  length [Py.lit "r-admin"; Py.lit "r-admin"] =
  S (count_occ Z.eq_dec (Py.lit "1,1") 44).
Proof.
  apply (select_roles_never_returns_empty Py.ascii_strip Py.ascii_int
           scenario.roles (Py.lit "1,1")
           (group.PrintHeader :: group.print_roles 0 scenario.roles
              ++ [group.Prompt])).
  reflexivity.
Defined.


Lemma parse_indices_first_bad strip int (pre : list Py.str) :
  forall token post,
    Forall (fun t => int (strip t) <> None) pre ->
    int (strip token) = None ->
    group.parse_indices strip int (pre ++ token :: post) =
    group.Except (group.InvalidLiteral (strip token)).
Proof.
  induction pre as [|t pre IH]; intros token post Hpre Hbad; simpl.
  - now rewrite Hbad.
  - inversion Hpre; subst.
    destruct (int (strip t)); [| contradiction].
    now rewrite IH.
Qed.

(** X11. Which error is reported: all the tokens are parsed before any
    number is looked at, so when some token is not an integer the error
    printed is the one [int] raised for the first such token, even if a
    token before it holds a number out of range; the message "Invalid role
    selection." is printed only when every token parses and some number is
    out of range. *)
Theorem select_roles_error_precedence :
  forall (strip : Py.str -> Py.str) (int : Py.str -> option Z)
         (roles : list group.role) (line : Py.str),
    (forall pre token post,
        Py.split 44 line = pre ++ token :: post ->
        Forall (fun t => int (strip t) <> None) pre ->
        int (strip token) = None ->
        group.select_roles strip int roles line =
        ((group.PrintHeader :: group.print_roles 0 roles ++ [group.Prompt])
           ++ [group.PrintInputError (group.InvalidLiteral (strip token))],
         group.Exited 1)) /\
    (forall numbers,
        Forall2 (group.parses_as strip int) (Py.split 44 line) numbers ->
        Exists (fun i => ~ group.in_range roles i) numbers ->
        group.select_roles strip int roles line =
        ((group.PrintHeader :: group.print_roles 0 roles ++ [group.Prompt])
           ++ [group.PrintInputError group.InvalidRoleSelection],
         group.Exited 1)).
Proof.
  intros strip int roles line. unfold group.select_roles. split.
  - intros pre token post -> Hpre Hbad.
    now rewrite (parse_indices_first_bad strip int pre token post Hpre Hbad).
  - intros numbers Hparse Hex.
    destruct (parse_indices_cases strip int (Py.split 44 line))
      as [(numbers' & Hparse' & ->) | (token & Hnone & _)].
    + rewrite (parses_as_functional strip int _ numbers' numbers
                 Hparse' Hparse).
      simpl. now rewrite (append_ids_out_of_range roles numbers Hex).
    + exfalso. clear Hex. unfold group.parses_as in Hparse.
      induction Hparse as [| t i ts ns Hi _ IH];
        inversion Hnone; subst; [congruence | auto].
Qed.

Lemma select_roles_error_precedence_witness :
  group.select_roles Py.ascii_strip Py.ascii_int scenario.roles
    (Py.lit "9, x") =
  ((group.PrintHeader :: group.print_roles 0 scenario.roles
      ++ [group.Prompt])
     ++ [group.PrintInputError (group.InvalidLiteral (Py.lit "x"))],
   group.Exited 1) /\
  group.select_roles Py.ascii_strip Py.ascii_int scenario.roles
    (Py.lit "9,1") =
  ((group.PrintHeader :: group.print_roles 0 scenario.roles
      ++ [group.Prompt])
     ++ [group.PrintInputError group.InvalidRoleSelection],
   group.Exited 1).
Proof.
  split.
  - apply (proj1 (select_roles_error_precedence Py.ascii_strip Py.ascii_int
                    scenario.roles (Py.lit "9, x"))
             [Py.lit "9"] (Py.lit " x") []).
    + reflexivity.
    + constructor; [discriminate | constructor].
    + reflexivity.
  - apply (proj2 (select_roles_error_precedence Py.ascii_strip Py.ascii_int
                    scenario.roles (Py.lit "9,1")) [9; 1]).
    + repeat constructor.
    + apply Exists_cons_hd. unfold group.in_range. simpl. lia.
Defined.

Lemma print_roles_nth (roles : list group.role) : forall i k r,
  nth_error roles k = Some r ->
  nth_error (group.print_roles i roles) k =
  Some (group.PrintRole (i + Z.of_nat k + 1) (group.name r)).
Proof.
  induction roles as [|role rest IH]; intros i k r H.
  - destruct k; discriminate.
  - destruct k as [|k]; simpl in *.
    + injection H as ->. do 2 f_equal. lia.
    + rewrite (IH (i + 1) k r H). do 2 f_equal. lia.
Qed.

(** X12. The menu and the selection agree: the role at position [k] of
    the list (counting from 0) is printed on line [k + 1] of the menu with
    the number [k + 1] and its name, and answering with that number alone
    returns exactly the identifier of that role. *)
Theorem menu_number_selects_its_role :
  forall (strip : Py.str -> Py.str) (int : Py.str -> option Z)
         (roles : list group.role) (k : nat) (r : group.role),
    nth_error roles k = Some r ->
    (forall line,
        nth_error (fst (group.select_roles strip int roles line)) (S k) =
        Some (group.PrintRole (Z.of_nat k + 1) (group.name r))) /\
    (forall line,
        Py.split 44 line = [line] ->
        int (strip line) = Some (Z.of_nat k + 1) ->
        snd (group.select_roles strip int roles line) =
        group.Returned [group.id r]).
Proof.
  intros strip int roles k r Hnth.
  assert (Hk : (k < length roles)%nat)
    by (apply nth_error_Some; rewrite Hnth; discriminate).
  split.
  - intros line.
    assert (Hshown : nth_error
                       (group.PrintHeader :: group.print_roles 0 roles
                          ++ [group.Prompt]) (S k) =
                     Some (group.PrintRole (Z.of_nat k + 1) (group.name r))).
    { simpl. rewrite nth_error_app1.
      - now rewrite (print_roles_nth roles 0 k r Hnth).
      - apply nth_error_Some.
        rewrite (print_roles_nth roles 0 k r Hnth). discriminate. }
    destruct (select_roles_cases strip int roles line)
      as [(numbers & ids & _ & _ & _ & E) | (ve & E)]; rewrite E.
    + exact Hshown.
    + cbn [fst]. rewrite nth_error_app1; [exact Hshown |].
      apply nth_error_Some. rewrite Hshown. discriminate.
  - intros line Hsplit Hint. unfold group.select_roles.
    rewrite Hsplit. simpl. rewrite Hint. simpl.
    destruct (Z.ltb_spec (Z.of_nat k + 1 - 1) 0); [lia |].
    rewrite Z.geb_leb.
    destruct (Z.leb_spec (Z.of_nat (length roles)) (Z.of_nat k + 1 - 1));
      [lia |].
    simpl. rewrite getitem_nat by lia.
    replace (Z.to_nat (Z.of_nat k + 1 - 1)) with k by lia.
    now rewrite Hnth.
Qed.

Lemma menu_number_selects_its_role_witness :
  nth_error
    (fst (group.select_roles Py.ascii_strip Py.ascii_int scenario.roles
            (Py.lit "nonsense"))) 2 =
  Some (group.PrintRole (Z.of_nat 1 + 1) (Py.lit "viewer")) /\
  snd (group.select_roles Py.ascii_strip Py.ascii_int scenario.roles
         (Py.lit " 2 ")) =
  group.Returned [Py.lit "r-viewer"].
Proof.
  destruct (menu_number_selects_its_role Py.ascii_strip Py.ascii_int
              scenario.roles 1
              {| group.name := Py.lit "viewer";
                 group.id := Py.lit "r-viewer" |} eq_refl) as [Hmenu Hsel].
  split.
  - apply Hmenu.
  - apply Hsel; reflexivity.
Defined.

(** * The script of [user.py] *)

Section UserScript.

Variable document : Type.
Variable truthy : document -> bool.
Variable strip : Py.str -> Py.str.
Variable lower : Py.str -> Py.str.
Variable groups : list user.group.
Variable keys : list Z.
Variable create_user :
  Py.str -> Py.str -> Py.str -> Py.str -> Py.str -> option document.

Local Abbreviation script :=
  (user_main.script document truthy strip lower groups keys create_user).

(** The script, branch by branch, once three lines are there to read. *)
Lemma user_script_unfold (l1 l2 l3 : Py.str) (rest : list Py.str) :
  script (l1 :: l2 :: l3 :: rest) =
  let asked := [user_main.Input user_main.AskEmail;
                user_main.Input user_main.AskFirstName;
                user_main.Input user_main.AskLastName] in
  if proc.falsy (strip l1) || proc.falsy (strip l2) || proc.falsy (strip l3)
  then (asked ++ [user_main.Say user_main.AllFieldsRequired], proc.Exit 1)
  else if proc.falsy groups
  then (asked ++ [user_main.RetrieveGroups;
                  user_main.Say user_main.NoGroupsAvailable], proc.Exit 1)
  else
    let fetched := asked ++ [user_main.RetrieveGroups;
                             user_main.Selector groups] in
    match user.display_filterable_list lower groups keys with
    | user.Active _ => (fetched, proc.AwaitingKey)
    | user.Raised e =>
        (fetched ++ [user_main.Say
                       (user_main.UnexpectedError (user_main.InSelector e))],
         proc.Exit 1)
    | user.Returned None =>
        (fetched ++ [user_main.Say user_main.NoGroupSelected], proc.Exit 1)
    | user.Returned (Some gid) =>
        if proc.falsy gid
        then (fetched ++ [user_main.Say user_main.NoGroupSelected],
              proc.Exit 1)
        else
          (fetched ++
             [user_main.CreateUser (strip l1) (strip l2) (strip l3) gid
                user_main.APPLICATION_ID;
              user_main.Say
                match create_user (strip l1) (strip l2) (strip l3) gid
                        user_main.APPLICATION_ID with
                | Some u => if truthy u then user_main.UserCreated u
                            else user_main.FailedToCreateUser
                | None => user_main.FailedToCreateUser
                end],
           proc.Exit 0)
    end.
Proof.
  unfold user_main.script, user_main.main, user_main.input,
    user_main.select, proc.bind, proc.emit, proc.ret, proc.halt,
    proc.read_line.
  cbn zeta.
  destruct (proc.falsy (strip l1) || proc.falsy (strip l2)
            || proc.falsy (strip l3)); [reflexivity |].
  destruct (proc.falsy groups); [reflexivity |].
  destruct (user.display_filterable_list lower groups keys) as [st | [gid |] | e];
    try reflexivity.
  destruct (proc.falsy gid); [reflexivity |].
  destruct (create_user (strip l1) (strip l2) (strip l3) gid
              user_main.APPLICATION_ID) as [u |];
    [destruct (truthy u) |]; reflexivity.
Qed.

(** With fewer than three lines the third [input] at the latest meets the
    end of the file. *)
Lemma user_script_short (stdin : list Py.str) :
  (length stdin < 3)%nat ->
  script stdin =
  (map user_main.Input
     (firstn (S (length stdin))
        [user_main.AskEmail; user_main.AskFirstName; user_main.AskLastName])
     ++ [user_main.Say (user_main.UnexpectedError user_main.EOFError)],
   proc.Exit 1).
Proof.
  intros H.
  destruct stdin as [|l1 [|l2 [|l3 rest]]]; [reflexivity .. |].
  simpl in H. lia.
Qed.

Lemma falsy_false {A : Type} (x : list A) : proc.falsy x = false -> x <> [].
Proof. destruct x; [discriminate | intros _; discriminate]. Qed.

Lemma returned_id_listed (i : Py.str) :
  user.display_filterable_list lower groups keys = user.Returned (Some i) ->
  exists opt, In opt groups /\ user.id opt = i.
Proof.
  intros H.
  destruct (run_returned lower groups keys user.initial i H)
    as (_ & _ & _ & st & opt & _ & _ & _ & Hg & Hid).
  exists opt. split; [| exact Hid].
  apply getitem_In, in_filtered_options in Hg. tauto.
Qed.

Ltac user_script_branches H :=
  rewrite user_script_unfold in H; cbn zeta in H;
  destruct (proc.falsy (strip _) || proc.falsy (strip _)
            || proc.falsy (strip _)) eqn:Efields;
  [| destruct (proc.falsy groups) eqn:Egroups;
     [| destruct (user.display_filterable_list lower groups keys)
          as [st | [gid |] | e] eqn:Esel;
        [| destruct (proc.falsy gid) eqn:Egid | |]]].

(** X13. [create_user] is called only on checked data: three answers
    were read, none of them empty once stripped, at least one group was
    fetched, and the group id passed is a non-empty identifier that the
    selector returned, hence the identifier of one of the fetched groups;
    the application id is the constant of the script. *)
Theorem create_user_only_on_checked_data :
  forall (stdin : list Py.str) (email first_name last_name gid app : Py.str),
    In (user_main.CreateUser email first_name last_name gid app)
       (fst (script stdin)) ->
    (exists l1 l2 l3 rest,
        stdin = l1 :: l2 :: l3 :: rest /\
        email = strip l1 /\ first_name = strip l2 /\ last_name = strip l3) /\
    email <> [] /\ first_name <> [] /\ last_name <> [] /\
    gid <> [] /\
    app = user_main.APPLICATION_ID /\
    user.display_filterable_list lower groups keys
    = user.Returned (Some gid) /\
    exists opt, In opt groups /\ user.id opt = gid.
Proof.
  intros stdin email first_name last_name gid0 app H.
  destruct stdin as [|l1 [|l2 [|l3 rest]]];
    try (simpl in H; intuition discriminate).
  user_script_branches H; simpl in H;
    try (intuition discriminate).
  destruct H as [H | [H | [H | [H | [H | [H | [H | []]]]]]]];
    try discriminate.
  injection H as <- <- <- <- <-.
  apply orb_false_elim in Efields. destruct Efields as [E12 E3].
  apply orb_false_elim in E12. destruct E12 as [E1 E2].
  repeat split; try (apply falsy_false; assumption).
  - now exists l1, l2, l3, rest.
  - now apply returned_id_listed.
Qed.

(** X14. The exit status tells whether [create_user] was called, not
    whether it succeeded: a run that ends has status 0 exactly when the
    call was made (a refused creation prints "Failed to create the user."
    and still ends with 0), and status 1 in every other case. *)
Theorem user_script_exit_status :
  forall (stdin : list Py.str),
    (snd (script stdin) = proc.Exit 0 <->
     Exists user_main.is_create_user (fst (script stdin))) /\
    (forall status,
        snd (script stdin) = proc.Exit status -> status = 0 \/ status = 1).
Proof.
  intros stdin.
  assert (Hno : forall (evs : list (user_main.event document)),
             Forall (fun e => ~ user_main.is_create_user e) evs ->
             ~ Exists user_main.is_create_user evs).
  { intros evs Hall Hex. apply Exists_exists in Hex.
    destruct Hex as (e & Hin & He).
    rewrite Forall_forall in Hall. exact (Hall e Hin He). }
  destruct stdin as [|l1 [|l2 [|l3 rest]]];
    try (split;
         [split; [discriminate |
                  intros Hex; exfalso; revert Hex; apply Hno;
                  repeat constructor; simpl; tauto]
         | intros status [= <-]; now right]).
  rewrite user_script_unfold. cbn zeta.
  destruct (proc.falsy (strip l1) || proc.falsy (strip l2)
            || proc.falsy (strip l3));
    [| destruct (proc.falsy groups);
       [| destruct (user.display_filterable_list lower groups keys)
            as [st | [gid |] | e];
          [| destruct (proc.falsy gid) | |]]];
    cbn [fst snd app];
    try (split;
         [split; [discriminate |
                  intros Hex; exfalso; revert Hex; apply Hno;
                  repeat constructor; simpl; tauto]
         | intros status; (intros [= <-]; now right) || discriminate]).
  split.
  - split; [intros _ | reflexivity].
    do 5 apply Exists_cons_tl. apply Exists_cons_hd. exact I.
  - intros status [= <-]. now left.
Qed.

Lemma falsy_true {A : Type} (x : list A) : x <> [] -> proc.falsy x = false.
Proof. destruct x; [contradiction | reflexivity]. Qed.

(** X15. When the selector does not hand back a usable identifier, no
    user is created and the status is 1.  With three non-empty answers and
    at least one group fetched: an exception raised in the selector (the
    [IndexError] of Enter on an empty view, the [ZeroDivisionError] of an
    arrow on an empty view, the [ValueError] of [chr]) is reported as an
    unexpected error; Escape, and also the selection of a group whose
    identifier is the empty string, are reported as "No group selected or
    operation canceled.". *)
Theorem selector_failure_creates_no_user :
  forall (l1 l2 l3 : Py.str) (rest : list Py.str),
    strip l1 <> [] -> strip l2 <> [] -> strip l3 <> [] -> groups <> [] ->
    (forall e,
        user.display_filterable_list lower groups keys = user.Raised e ->
        script (l1 :: l2 :: l3 :: rest) =
        ([user_main.Input user_main.AskEmail;
          user_main.Input user_main.AskFirstName;
          user_main.Input user_main.AskLastName;
          user_main.RetrieveGroups;
          user_main.Selector groups;
          user_main.Say (user_main.UnexpectedError (user_main.InSelector e))],
         proc.Exit 1)) /\
    (user.display_filterable_list lower groups keys = user.Returned None \/
     user.display_filterable_list lower groups keys
     = user.Returned (Some []) ->
     script (l1 :: l2 :: l3 :: rest) =
     ([user_main.Input user_main.AskEmail;
       user_main.Input user_main.AskFirstName;
       user_main.Input user_main.AskLastName;
       user_main.RetrieveGroups;
       user_main.Selector groups;
       user_main.Say user_main.NoGroupSelected],
      proc.Exit 1)).
Proof.
  intros l1 l2 l3 rest H1 H2 H3 Hg.
  rewrite user_script_unfold. cbn zeta.
  rewrite (falsy_true _ H1), (falsy_true _ H2), (falsy_true _ H3),
    (falsy_true _ Hg).
  cbn [orb]. split.
  - intros e ->. reflexivity.
  - intros [-> | ->]; reflexivity.
Qed.

(** X16. The server is asked for the groups only once the three answers
    have been read and none of them is empty after stripping: before that
    the script has exited, on "All fields are required." or on the end of
    the input. *)
Theorem groups_fetched_after_three_answers :
  forall (stdin : list Py.str),
    In user_main.RetrieveGroups (fst (script stdin)) <->
    exists l1 l2 l3 rest,
      stdin = l1 :: l2 :: l3 :: rest /\
      strip l1 <> [] /\ strip l2 <> [] /\ strip l3 <> [].
Proof.
  intros stdin. split.
  - intros H.
    destruct stdin as [|l1 [|l2 [|l3 rest]]];
      try (simpl in H; intuition discriminate).
    exists l1, l2, l3, rest.
    rewrite user_script_unfold in H. cbn zeta in H.
    destruct (proc.falsy (strip l1) || proc.falsy (strip l2)
              || proc.falsy (strip l3)) eqn:Efields.
    + simpl in H. intuition discriminate.
    + apply orb_false_elim in Efields. destruct Efields as [E12 E3].
      apply orb_false_elim in E12. destruct E12 as [E1 E2].
      repeat split; apply falsy_false; assumption.
  - intros (l1 & l2 & l3 & rest & -> & H1 & H2 & H3).
    rewrite user_script_unfold. cbn zeta.
    rewrite (falsy_true _ H1), (falsy_true _ H2), (falsy_true _ H3).
    cbn [orb].
    destruct (proc.falsy groups);
      [| destruct (user.display_filterable_list lower groups keys)
           as [st | [gid |] | e]; [| destruct (proc.falsy gid) | |]];
      simpl; tauto.
Qed.

End UserScript.

(** A run of the script of [user.py] used below: the server holds the
    three teams, the operator types "al" and presses Enter, and the server
    refuses the creation. *)
Lemma create_user_only_on_checked_data_witness :
  exists opt, In opt scenario.teams /\ user.id opt = Py.lit "3".
Proof.
  apply (create_user_only_on_checked_data unit (fun _ => true)
           Py.ascii_strip Py.ascii_lower scenario.teams [97; 108; 10]
           (fun _ _ _ _ _ => None)
           [Py.lit " ann@example.org"; Py.lit "Ann "; Py.lit "Lee"]
           (Py.lit "ann@example.org") (Py.lit "Ann") (Py.lit "Lee")
           (Py.lit "3") user_main.APPLICATION_ID).
  vm_compute. do 5 right. left. reflexivity.
Defined.

Lemma selector_failure_creates_no_user_witness :
  user_main.script unit (fun _ => true) Py.ascii_strip Py.ascii_lower
    scenario.teams [122; 10] (fun _ _ _ _ _ => Some tt)
    [Py.lit "ann@example.org"; Py.lit "Ann"; Py.lit "Lee"] =
  ([user_main.Input user_main.AskEmail;
    user_main.Input user_main.AskFirstName;
    user_main.Input user_main.AskLastName;
    user_main.RetrieveGroups;
    user_main.Selector scenario.teams;
    user_main.Say
      (user_main.UnexpectedError (user_main.InSelector Py.IndexError))],
   proc.Exit 1).
Proof.
  apply (proj1 (selector_failure_creates_no_user unit (fun _ => true)
                  Py.ascii_strip Py.ascii_lower scenario.teams [122; 10]
                  (fun _ _ _ _ _ => Some tt)
                  (Py.lit "ann@example.org") (Py.lit "Ann") (Py.lit "Lee") []
                  ltac:(discriminate) ltac:(discriminate)
                  ltac:(discriminate) ltac:(discriminate))).
  reflexivity.
Defined.

(** * The script of [group.py] *)

Section GroupScript.

Variable document : Type.
Variable truthy : document -> bool.
Variable strip : Py.str -> Py.str.
Variable int : Py.str -> option Z.
Variable roles_fetched : option (list group.role).
Variable create_group :
  Py.str -> Py.str -> list Py.str -> Py.str -> option Py.str ->
  option document.

Local Abbreviation script :=
  (group_main.script document truthy strip int roles_fetched create_group).

Local Abbreviation ask := (fun q => @group_main.Input document q).

Local Abbreviation say := (fun m => @group_main.Say document m).

(** The script, branch by branch. *)
Lemma group_script_unfold (stdin : list Py.str) :
  script stdin =
  match stdin with
  | [] =>
      ([ask group_main.AskGroupName;
        say (group_main.UnexpectedError group_main.EOFError)], proc.Exit 1)
  | l1 :: [] =>
      if proc.falsy (strip l1)
      then ([ask group_main.AskGroupName; say group_main.GroupNameEmpty],
            proc.Exit 1)
      else ([ask group_main.AskGroupName;
             ask group_main.AskBlockchainAddress;
             say (group_main.UnexpectedError group_main.EOFError)],
            proc.Exit 1)
  | l1 :: l2 :: [] =>
      if proc.falsy (strip l1)
      then ([ask group_main.AskGroupName; say group_main.GroupNameEmpty],
            proc.Exit 1)
      else if proc.falsy (strip l2)
      then ([ask group_main.AskGroupName;
             ask group_main.AskBlockchainAddress;
             say group_main.BlockchainAddressEmpty], proc.Exit 1)
      else ([ask group_main.AskGroupName;
             ask group_main.AskBlockchainAddress;
             ask group_main.AskEmail;
             say (group_main.UnexpectedError group_main.EOFError)],
            proc.Exit 1)
  | l1 :: l2 :: l3 :: tail =>
      if proc.falsy (strip l1)
      then ([ask group_main.AskGroupName; say group_main.GroupNameEmpty],
            proc.Exit 1)
      else if proc.falsy (strip l2)
      then ([ask group_main.AskGroupName;
             ask group_main.AskBlockchainAddress;
             say group_main.BlockchainAddressEmpty], proc.Exit 1)
      else if proc.falsy (strip l3)
      then ([ask group_main.AskGroupName;
             ask group_main.AskBlockchainAddress;
             ask group_main.AskEmail;
             say group_main.EmailEmpty], proc.Exit 1)
      else
        let asked := [ask group_main.AskGroupName;
                      ask group_main.AskBlockchainAddress;
                      ask group_main.AskEmail;
                      ask group_main.AskGroupId] in
        match tail with
        | [] =>
            (asked ++ [say (group_main.UnexpectedError group_main.EOFError)],
             proc.Exit 1)
        | l4 :: answers =>
            match roles_fetched with
            | None =>
                (asked ++ [group_main.GetRoles; say group_main.NoRolesFound],
                 proc.Exit 1)
            | Some [] =>
                (asked ++ [group_main.GetRoles; say group_main.NoRolesFound],
                 proc.Exit 1)
            | Some (role :: more) =>
                let roles := role :: more in
                match answers with
                | [] =>
                    (asked ++ group_main.GetRoles
                       :: map group_main.Picker
                            (group.PrintHeader
                               :: group.print_roles 0 roles ++ [group.Prompt])
                       ++ [say (group_main.UnexpectedError
                                  group_main.EOFError)],
                     proc.Exit 1)
                | l5 :: _ =>
                    match group.select_roles strip int roles l5 with
                    | (out, group.Returned []) =>
                        (asked ++ group_main.GetRoles
                           :: map group_main.Picker out
                           ++ [say group_main.NoRolesSelected],
                         proc.Exit 1)
                    | (out, group.Returned (rid :: rids)) =>
                        (asked ++ group_main.GetRoles
                           :: map group_main.Picker out
                           ++ [group_main.CreateGroup (strip l1) (strip l2)
                                 (rid :: rids) (strip l3)
                                 (group_main.or_None (strip l4));
                               say
                                 match create_group (strip l1) (strip l2)
                                         (rid :: rids) (strip l3)
                                         (group_main.or_None (strip l4))
                                 with
                                 | Some g =>
                                     if truthy g
                                     then group_main.GroupCreated g
                                     else group_main.FailedToCreateGroup
                                 | None => group_main.FailedToCreateGroup
                                 end],
                         proc.Exit 0)
                    | (out, group.Exited status) =>
                        (asked ++ group_main.GetRoles
                           :: map group_main.Picker out,
                         proc.Exit status)
                    | (out, group.Raised e) =>
                        (asked ++ group_main.GetRoles
                           :: map group_main.Picker out
                           ++ [say (group_main.UnexpectedError
                                      (group_main.InPicker e))],
                         proc.Exit 1)
                    end
                end
            end
        end
  end.
Proof.
  unfold group_main.script, group_main.main, group_main.input,
    group_main.select_roles, proc.bind, proc.emit, proc.ret, proc.halt,
    proc.read_line.
  destruct stdin as [|l1 [|l2 [|l3 [|l4 answers]]]]; cbn zeta;
    try reflexivity;
    repeat match goal with
           | |- context [proc.falsy (strip ?l)] =>
               destruct (proc.falsy (strip l)); try reflexivity
           end.
  destruct roles_fetched as [[|role more] |]; try reflexivity.
  cbn [proc.falsy].
  destruct answers as [|l5 rest].
  - reflexivity.
  - destruct (group.select_roles strip int (role :: more) l5)
      as [out [[|rid rids] | status | e]]; cbn [app proc.falsy];
      rewrite ?app_nil_r; try reflexivity.
    destruct (create_group (strip l1) (strip l2) (rid :: rids) (strip l3)
                (group_main.or_None (strip l4))) as [g |];
      [destruct (truthy g) |]; reflexivity.
Qed.

Lemma returned_ids_checked (roles : list group.role) (line : Py.str)
  (out : list group.output) (ids : list Py.str) :
  group.select_roles strip int roles line = (out, group.Returned ids) ->
  ids <> [] /\
  forall rid, In rid ids -> exists r, In r roles /\ group.id r = rid.
Proof.
  intros H.
  destruct (select_roles_cases strip int roles line)
    as [(numbers & ids' & Hparse & _ & Hids & E) | (ve & E)];
    rewrite E in H; [| discriminate].
  injection H as _ <-. split.
  - intros ->. inversion Hids; subst. inversion Hparse; subst.
    destruct line as [|c line]; simpl in *; [discriminate |].
    destruct (c =? 44); [discriminate |].
    destruct (Py.split 44 line); discriminate.
  - intros rid Hin. clear E Hparse.
    induction Hids as [| i r ns rs Hir _ IH]; [contradiction |].
    destruct Hin as [<- | Hin]; [exact (id_at_In roles i r Hir) | now apply IH].
Qed.

Lemma exited_status_1 (roles : list group.role) (line : Py.str)
  (out : list group.output) (status : Z) :
  group.select_roles strip int roles line = (out, group.Exited status) ->
  status = 1.
Proof.
  intros H.
  destruct (select_roles_cases strip int roles line)
    as [(numbers & ids' & _ & _ & _ & E) | (ve & E)];
    rewrite E in H; [discriminate |].
  now injection H as _ <-.
Qed.

Lemma picker_never_raises (roles : list group.role) (line : Py.str)
  (out : list group.output) (e : Py.exn) :
  group.select_roles strip int roles line <> (out, group.Raised e).
Proof.
  intros H.
  destruct (select_roles_cases strip int roles line)
    as [(numbers & ids' & _ & _ & _ & E) | (ve & E)];
    rewrite E in H; discriminate.
Qed.

(** Splits the script into its branches, keeping the tests as equations. *)
Ltac group_script_branches stdin :=
  rewrite group_script_unfold in *;
  destruct stdin as [|l1 [|l2 [|l3 [|l4 [|l5 rest]]]]];
  cbn zeta in *;
  repeat match goal with
         | _ : context [if proc.falsy (strip ?l) then _ else _] |- _ =>
             let E := fresh "Efield" in
             destruct (proc.falsy (strip l)) eqn:E
         | |- context [if proc.falsy (strip ?l) then _ else _] =>
             let E := fresh "Efield" in
             destruct (proc.falsy (strip l)) eqn:E
         end;
  try (destruct roles_fetched as [[|role more] |] eqn:Eroles);
  try match goal with
      | _ : context [group.select_roles strip int ?r ?l] |- _ =>
          let E := fresh "Epick" in
          destruct (group.select_roles strip int r l)
            as [out [[|rid rids] | status | e]] eqn:E
      | |- context [group.select_roles strip int ?r ?l] =>
          let E := fresh "Epick" in
          destruct (group.select_roles strip int r l)
            as [out [[|rid rids] | status | e]] eqn:E
      end;
  try match goal with
      | _ : context [create_group ?a ?b ?c ?d ?e] |- _ =>
          destruct (create_group a b c d e) as [g |];
          [destruct (truthy g) |]
      | |- context [create_group ?a ?b ?c ?d ?e] =>
          destruct (create_group a b c d e) as [g |];
          [destruct (truthy g) |]
      end.

(** Decides membership of a call or a message in a trace of the script. *)
Ltac in_trace H :=
  cbn [fst snd app] in H;
  repeat first
    [ rewrite in_app_iff in H
    | match type of H with
      | In _ (_ :: _) => destruct H as [H | H]; [try discriminate |]
      | In _ [] => contradiction
      | In _ (map _ _) =>
          apply in_map_iff in H; destruct H as (? & H & _); try discriminate
      | _ \/ _ => destruct H as [H | H]
      end ].

(** X17. The message "No roles selected." can never be printed: the
    test that guards it is on a list the picker never returns empty. *)
Theorem no_roles_selected_is_unreachable :
  forall (stdin : list Py.str),
    Forall (fun ev => ev <> group_main.Say group_main.NoRolesSelected)
      (fst (script stdin)).
Proof.
  intros stdin. apply Forall_forall. intros ev H ->.
  group_script_branches stdin; in_trace H.
  exact (proj1 (returned_ids_checked _ _ _ _ Epick) eq_refl).
Qed.

(** X18. [create_group] is called only on checked data: five answers
    were read; the name, the blockchain address and the email are the first
    three answers stripped, none of them empty; the group id is the fourth
    answer stripped, or [None] when that is empty, never the empty string;
    roles were fetched, and the role ids passed are a non-empty list that
    the picker returned for the fifth answer, each the identifier of a
    fetched role. *)
Theorem create_group_only_on_checked_data :
  forall (stdin : list Py.str) (name address : Py.str)
         (role_ids : list Py.str) (email : Py.str) (gid : option Py.str),
    In (group_main.CreateGroup name address role_ids email gid)
       (fst (script stdin)) ->
    exists l1 l2 l3 l4 l5 rest roles out,
      stdin = l1 :: l2 :: l3 :: l4 :: l5 :: rest /\
      name = strip l1 /\ address = strip l2 /\ email = strip l3 /\
      name <> [] /\ address <> [] /\ email <> [] /\
      gid = group_main.or_None (strip l4) /\ gid <> Some [] /\
      roles_fetched = Some roles /\
      group.select_roles strip int roles l5 = (out, group.Returned role_ids) /\
      role_ids <> [] /\
      forall rid, In rid role_ids ->
                  exists r, In r roles /\ group.id r = rid.
Proof.
  intros stdin name address role_ids email gid H.
  group_script_branches stdin; in_trace H;
    injection H as <- <- <- <- <-;
    exists l1, l2, l3, l4, l5, rest, (role :: more), out;
    destruct (returned_ids_checked _ _ _ _ Epick) as [Hne Hin];
    repeat split; try (apply falsy_false; assumption); try assumption;
    unfold group_main.or_None; destruct (strip l4); discriminate.
Qed.

(** X19. The script of [group.py] always ends, with status 0 or 1, and
    the status tells whether [create_group] was called, not whether it
    succeeded: it is 0 exactly when the call was made. *)
Theorem group_script_exit_status :
  forall (stdin : list Py.str),
    (snd (script stdin) = proc.Exit 0 \/ snd (script stdin) = proc.Exit 1) /\
    (snd (script stdin) = proc.Exit 0 <->
     Exists group_main.is_create_group (fst (script stdin))).
Proof.
  intros stdin.
  assert (Hno : forall (evs : list (group_main.event document)),
             (forall e, In e evs -> ~ group_main.is_create_group e) ->
             ~ Exists group_main.is_create_group evs).
  { intros evs Hall Hex. apply Exists_exists in Hex.
    destruct Hex as (e & Hin & He). exact (Hall e Hin He). }
  group_script_branches stdin; cbn [fst snd];
    try (pose proof (exited_status_1 _ _ _ _ Epick); subst status);
    try (exfalso; exact (picker_never_raises _ _ _ _ Epick));
    (split; [auto |]);
    try (split; [discriminate |];
         intros Hex; exfalso; revert Hex; apply Hno;
         intros ev Hin; in_trace Hin; try subst ev; simpl; tauto).
  all: split; [intros _ | reflexivity].
  all: apply Exists_exists.
  all: exists (group_main.CreateGroup (strip l1) (strip l2) (rid :: rids)
                 (strip l3) (group_main.or_None (strip l4))).
  all: split; [| exact I].
  all: cbn [app]; do 5 right; apply in_app_iff; right; left; reflexivity.
Qed.

(** X20. The server is asked for the roles only once four answers have
    been read and the first three are not empty after stripping: an empty
    name, address or email ends the script at that question. *)
Theorem roles_fetched_after_four_answers :
  forall (stdin : list Py.str),
    In group_main.GetRoles (fst (script stdin)) <->
    exists l1 l2 l3 l4 rest,
      stdin = l1 :: l2 :: l3 :: l4 :: rest /\
      strip l1 <> [] /\ strip l2 <> [] /\ strip l3 <> [].
Proof.
  intros stdin. split.
  - intros H.
    group_script_branches stdin; in_trace H;
      eexists _, _, _, _, _;
      (split; [reflexivity |]);
      repeat split; apply falsy_false; assumption.
  - intros (l1 & l2 & l3 & l4 & rest & -> & H1 & H2 & H3).
    rewrite group_script_unfold.
    rewrite (falsy_true _ H1), (falsy_true _ H2), (falsy_true _ H3).
    cbn zeta.
    destruct roles_fetched as [[|role more] |];
      [| destruct rest as [|l5 rest];
         [| destruct (group.select_roles strip int (role :: more) l5)
              as [out [[|rid rids] | status | e]]] |];
      cbn [fst app]; do 4 right; left; reflexivity.
Qed.

End GroupScript.

Lemma create_group_only_on_checked_data_witness :
  exists l1 l2 l3 l4 l5 rest roles out,
    [Py.lit "Acme"; Py.lit " 0xabc "; Py.lit "ops@example.org"; Py.lit "";
     Py.lit "2,1"] = l1 :: l2 :: l3 :: l4 :: l5 :: rest /\
    Py.lit "Acme" = Py.ascii_strip l1 /\
    Py.lit "0xabc" = Py.ascii_strip l2 /\
    Py.lit "ops@example.org" = Py.ascii_strip l3 /\
    Py.lit "Acme" <> [] /\ Py.lit "0xabc" <> [] /\
    Py.lit "ops@example.org" <> [] /\
    @None Py.str = group_main.or_None (Py.ascii_strip l4) /\
    @None Py.str <> Some [] /\
    Some scenario.roles = Some roles /\
    group.select_roles Py.ascii_strip Py.ascii_int roles l5 =
    (out, group.Returned [Py.lit "r-viewer"; Py.lit "r-admin"]) /\
    [Py.lit "r-viewer"; Py.lit "r-admin"] <> [] /\
    forall rid,
      In rid [Py.lit "r-viewer"; Py.lit "r-admin"] ->
      exists r, In r roles /\ group.id r = rid.
Proof.
  apply (create_group_only_on_checked_data unit (fun _ => true)
           Py.ascii_strip Py.ascii_int (Some scenario.roles)
           (fun _ _ _ _ _ => None)).
  vm_compute. do 9 right. left. reflexivity.
Defined.
